(** * ecc25519: the curve25519 key manager of CyaSSL (ctaocrypt/src/ecc25519.c)

    A shallow embedding of [ecc25519.c] and of the declarations of
    [ecc25519.h].  Pointers that the C code tests against NULL (or
    dereferences without a test) are options; buffers are lists of bytes
    together with their real length; every access outside a buffer and
    every dereference of a null pointer is an explicit [Fault].  The copy of
    [ecc25519_import_public] is followed where it goes: behind its source it
    reads the memory that lies there, and behind [p.point] it writes into
    [k.point], the next member of the key ([fetch], [XMEMCPY_adjacent]). *)

From Stdlib Require Import String.
From Stdlib Require Import ZArith List Lia Bool.
From Stdlib Require Import Strings.Byte.
From Stdlib Require Import Zmod.
Import ListNotations.

#[local] Open Scope Z_scope.

(** ** Outcomes of C code *)

Inductive fault : Type :=
| NullDeref      (* a null pointer is dereferenced *)
| OutOfBounds.   (* a buffer is read or written outside its extent *)

Inductive result (A : Type) : Type :=
| Ok (a : A)
| Fault (e : fault).

Arguments Ok {A} a.
Arguments Fault {A} e.

Definition bind {A B : Type} (m : result A) (k : A -> result B) : result B :=
  match m with
  | Ok a => k a
  | Fault e => Fault e
  end.

Notation "x <- m ;; k" := (bind m (fun x => k))
  (at level 61, m at next level, right associativity).

(** Dereference of a pointer that may be null. *)
Definition deref {A : Type} (ptr : option A) : result A :=
  match ptr with
  | Some a => Ok a
  | None => Fault NullDeref
  end.

(** ** Bytes and machine integers *)

Definition byte_to_Z (b : byte) : Z := Z.of_N (Byte.to_N b).

(** Conversion to [unsigned char]: reduction modulo 256. *)
Definition byte_of_Z (z : Z) : byte :=
  match Byte.of_N (Z.to_N (z mod 256)) with
  | Some b => b
  | None => x00
  end.

(** Conversion to [word32]: reduction modulo 2^32. *)
Definition to_word32 (z : Z) : Z := z mod 2 ^ 32.

(** [b & m] and [b | m] on an [unsigned char]. *)
Definition byte_and (b : byte) (m : Z) : byte := byte_of_Z (Z.land (byte_to_Z b) m).
Definition byte_or (b : byte) (m : Z) : byte := byte_of_Z (Z.lor (byte_to_Z b) m).

(** ** Buffers *)

(** [buf[i]] as an rvalue. *)
Definition load (buf : list byte) (i : nat) : result byte :=
  match nth_error buf i with
  | Some b => Ok b
  | None => Fault OutOfBounds
  end.

(** [buf[i] = v]. *)
Definition store (buf : list byte) (i : nat) (v : byte) : result (list byte) :=
  if (i <? length buf)%nat
  then Ok (firstn i buf ++ v :: skipn (S i) buf)
  else Fault OutOfBounds.

(** [XMEMSET(dst + doff, c, n)]. *)
Definition XMEMSET (dst : list byte) (doff : nat) (c : byte) (n : nat) : result (list byte) :=
  if (doff + n <=? length dst)%nat
  then Ok (firstn doff dst ++ repeat c n ++ skipn (doff + n) dst)
  else Fault OutOfBounds.

(** [XMEMCPY(dst + doff, src + soff, n)]: [n] bytes are read from the source and
    written to the destination; both ranges must lie inside their buffers. *)
Definition XMEMCPY (dst : list byte) (doff : nat) (src : list byte) (soff : nat) (n : nat)
  : result (list byte) :=
  if ((soff + n <=? length src) && (doff + n <=? length dst))%nat%bool
  then Ok (firstn doff dst ++ firstn n (skipn soff src) ++ skipn (doff + n) dst)
  else Fault OutOfBounds.

(** The byte at [src + i]: inside the buffer its own byte, behind its end the
    byte that follows it in memory, [past 0] being the first one. *)
Definition fetch (src : list byte) (past : nat -> byte) (i : nat) : byte :=
  match nth_error src i with
  | Some b => b
  | None => past (i - length src)%nat
  end.

(** [XMEMCPY(dst, src + soff, n)] where [dst] and [next] are two arrays that lie
    one behind the other in a struct: the [n] bytes are taken from [src] and
    from what follows it, the bytes that do not fit into [dst] land in [next],
    and a copy longer than both arrays leaves the struct. *)
Definition XMEMCPY_adjacent (dst next src : list byte) (past : nat -> byte) (soff n : nat)
  : result (list byte * list byte) :=
  if (n <=? length dst + length next)%nat
  then
    let data := map (fetch src past) (seq soff n) in
    let mem := data ++ skipn n (dst ++ next) in
    Ok (firstn (length dst) mem, skipn (length dst) mem)
  else Fault OutOfBounds.

(** [XMEMCPY(dst, src, n)] through pointers that may be null: a copy of no
    bytes reads and writes nothing, whatever the pointers are. *)
Definition XMEMCPY_ptr (dst src : option (list byte)) (n : nat) : result (option (list byte)) :=
  match n with
  | O => Ok dst
  | _ =>
      d <- deref dst ;;
      s <- deref src ;;
      d' <- XMEMCPY d 0 s 0 n ;;
      Ok (Some d')
  end.

(** [for (i = 0; i < n; ++i) body], the loop state threaded through. *)
Fixpoint for_loop {S : Type} (n : nat) (i : nat) (body : nat -> S -> result S) (s : S)
  : result S :=
  match n with
  | O => Ok s
  | Datatypes.S n' => s' <- body i s ;; for_loop n' (Datatypes.S i) body s'
  end.

(** ** Declarations of ecc25519.h *)

Definition ECC25519_KEYSIZE : Z := 32.

(* ECC set type *)
Record ecc25519_set_type : Type := {
  size : Z;        (* The size of the curve in octets *)
  name : string    (* name of this curve *)
}.

(* ECC point *)
Record ECPoint : Type := { point : list byte }.

(* ECC Point Format *)
Definition montgomery_x_le : byte := x41.

(* An ECC25519 Key; the fields [type], [idx], [dp], [f], [p], [k] of the C struct *)
Record ecc25519_key : Type := {
  key_type : Z;
  key_idx : Z;
  key_dp : option ecc25519_set_type;   (* domain parameters, NULL or a set *)
  key_f : byte;                        (* format of key *)
  key_p : ECPoint;                     (* public key  *)
  key_k : ECPoint                      (* private key *)
}.

(** The two arrays of a key are [byte point[ECC25519_KEYSIZE]]. *)
Definition wf_key (key : ecc25519_key) : Prop :=
  length (point (key_p key)) = 32%nat /\ length (point (key_k key)) = 32%nat.

Definition set_dp (key : ecc25519_key) (v : option ecc25519_set_type) : ecc25519_key :=
  {| key_type := key_type key; key_idx := key_idx key; key_dp := v;
     key_f := key_f key; key_p := key_p key; key_k := key_k key |}.

Definition set_f (key : ecc25519_key) (v : byte) : ecc25519_key :=
  {| key_type := key_type key; key_idx := key_idx key; key_dp := key_dp key;
     key_f := v; key_p := key_p key; key_k := key_k key |}.

Definition set_p (key : ecc25519_key) (v : list byte) : ecc25519_key :=
  {| key_type := key_type key; key_idx := key_idx key; key_dp := key_dp key;
     key_f := key_f key; key_p := {| point := v |}; key_k := key_k key |}.

Definition set_k (key : ecc25519_key) (v : list byte) : ecc25519_key :=
  {| key_type := key_type key; key_idx := key_idx key; key_dp := key_dp key;
     key_f := key_f key; key_p := key_p key; key_k := {| point := v |} |}.

(** [const ecc25519_set_type ecc25519_sets[]] *)
Definition ecc25519_sets : list ecc25519_set_type :=
  [ {| size := 32; name := "CURVE25519"%string |} ].

Definition ecc25519_sets_0 : ecc25519_set_type :=
  nth 0 ecc25519_sets {| size := 0; name := EmptyString |}.

(** ** The field arithmetic engine (ecc25519_fe.h) *)

Module Fe.

(** Modelled from the spec: the header [ecc25519_fe.h] with the type [fe] and
    the functions [fe_0], [fe_1], [fe_copy], [fe_add], [fe_sub], [fe_mul],
    [fe_sq], [fe_mul121666], [fe_invert], [fe_cswap], [fe_frombytes] and
    [fe_tobytes] is not part of the source tree.  A field element is
    "an integer mod 2^255-19"; the operations are the field operations. *)
Definition p25519 : Z := 2 ^ 255 - 19.

Definition fe : Type := Zmod p25519.

Definition fe_0 : fe := Zmod.zero.
Definition fe_1 : fe := Zmod.one.
Definition fe_copy (f : fe) : fe := f.
Definition fe_add (f g : fe) : fe := Zmod.add f g.
Definition fe_sub (f g : fe) : fe := Zmod.sub f g.
Definition fe_mul (f g : fe) : fe := Zmod.mul f g.
Definition fe_sq (f : fe) : fe := Zmod.mul f f.
Definition fe_mul121666 (f : fe) : fe := Zmod.mul (Zmod.of_Z p25519 121666) f.

(** "returns a^-1 mod p via exponentiation by p-2; invert(0) returns 0" *)
Definition fe_invert (z : fe) : fe := Zmod.pow z (p25519 - 2).

(** "if bit==1, a and b are exchanged; if bit==0, unchanged" *)
Definition fe_cswap (f g : fe) (b : Z) : fe * fe :=
  if b =? 1 then (g, f) else (f, g).

Fixpoint le_decode (s : list byte) : Z :=
  match s with
  | [] => 0
  | b :: t => byte_to_Z b + 256 * le_decode t
  end.

Fixpoint le_encode (n : nat) (z : Z) : list byte :=
  match n with
  | O => []
  | S n' => byte_of_Z z :: le_encode n' (z / 256)
  end.

(** "little-endian decode, masking the top bit (bit 255) of the input" *)
Definition fe_frombytes (s : list byte) : fe :=
  Zmod.of_Z p25519 (Z.land (le_decode (firstn 32 s)) (2 ^ 255 - 1)).

(** "fully reduces a to its unique representative in [0, 2^255-19) before
    little-endian encoding" *)
Definition fe_tobytes (h : fe) : list byte := le_encode 32 (Zmod.to_Z h).

End Fe.

Import Fe.

(** ** The scalar multiplier *)

(** The clamp of lines 61-63 (on [e]) and 113-115 (on [key->k.point]):
    [e[0] &= 248; e[31] &= 127; e[31] |= 64]. *)
Definition clamp (e : list byte) : result (list byte) :=
  b0 <- load e 0 ;;
  e <- store e 0 (byte_and b0 248) ;;
  b31 <- load e 31 ;;
  e <- store e 31 (byte_and b31 127) ;;
  b31 <- load e 31 ;;
  store e 31 (byte_or b31 64).

(** The registers of the ladder: [x2], [z2], [x3], [z3]. *)
Definition ladder_regs : Type := (fe * fe * fe * fe)%type.

(** Modelled from the spec: the header [ecc25519_montgomery.h] included in
    the loop body is not part of the source tree; it is "the standard
    differential-addition-and-doubling step updating (x2,z2,x3,z3) using only
    field add/sub/mul/square", a fixed straight-line sequence over the
    temporaries [tmp0] and [tmp1]. *)
Definition montgomery_step (x1 : fe) (r : ladder_regs) : ladder_regs :=
  let '(x2, z2, x3, z3) := r in
  let tmp0 := fe_sub x3 z3 in
  let tmp1 := fe_sub x2 z2 in
  let x2 := fe_add x2 z2 in
  let z2 := fe_add x3 z3 in
  let z3 := fe_mul tmp0 x2 in
  let z2 := fe_mul z2 tmp1 in
  let tmp0 := fe_sq tmp1 in
  let tmp1 := fe_sq x2 in
  let x3 := fe_add z3 z2 in
  let z2 := fe_sub z3 z2 in
  let x2 := fe_mul tmp1 tmp0 in
  let tmp1 := fe_sub tmp1 tmp0 in
  let z2 := fe_sq z2 in
  let z3 := fe_mul121666 tmp1 in
  let x3 := fe_sq x3 in
  let tmp0 := fe_add tmp0 z3 in
  let z3 := fe_mul x1 z2 in
  let z2 := fe_mul tmp1 tmp0 in
  (x2, z2, x3, z3).

(** The body of the loop of lines 72-80 at bit position [pos]. *)
Definition ladder_body (e : list byte) (x1 : fe) (pos : Z) (st : ladder_regs * Z)
  : ladder_regs * Z :=
  let '(x2, z2, x3, z3, swap) := st in
  let b := Z.shiftr (byte_to_Z (nth (Z.to_nat (pos / 8)) e x00)) (Z.land pos 7) in
  let b := Z.land b 1 in
  let swap := Z.lxor swap b in
  let '(x2, x3) := fe_cswap x2 x3 swap in
  let '(z2, z3) := fe_cswap z2 z3 swap in
  let swap := b in
  (montgomery_step x1 (x2, z2, x3, z3), swap).

(** [for (pos = n - 1; pos >= 0; --pos)] *)
Fixpoint ladder_loop (e : list byte) (x1 : fe) (n : nat) (st : ladder_regs * Z)
  : ladder_regs * Z :=
  match n with
  | O => st
  | S n' => ladder_loop e x1 n' (ladder_body e x1 (Z.of_nat n') st)
  end.

(** Lines 65-86 of [curve25519]: the ladder on the clamped scalar [e] and the
    point [p], up to the bytes that [fe_tobytes] produces. *)
Definition curve25519_ladder (e p : list byte) : list byte :=
  let x1 := fe_frombytes p in
  let x2 := fe_1 in
  let z2 := fe_0 in
  let x3 := fe_copy x1 in
  let z3 := fe_1 in
  let swap := 0 in
  let '(x2, z2, x3, z3, swap) := ladder_loop e x1 255 (x2, z2, x3, z3, swap) in
  let '(x2, x3) := fe_cswap x2 x3 swap in
  let '(z2, z3) := fe_cswap z2 z3 swap in
  let z2 := fe_invert z2 in
  let x2 := fe_mul x2 z2 in
  fe_tobytes x2.

(** [static int curve25519(unsigned char* q, unsigned char* n, unsigned char* p)];
    returns the return value and the new contents of [q]. *)
Definition curve25519 (q n p : list byte) : result (Z * list byte) :=
  let e := repeat x00 32 in
  e <- for_loop 32 0 (fun i e => v <- load n i ;; store e i v) e ;;
  e <- clamp e ;;
  _ <- (if (32 <=? length p)%nat then Ok tt else Fault OutOfBounds) ;;
  q <- XMEMCPY q 0 (curve25519_ladder e p) 0 32 ;;
  Ok (0, q).

(** ** The key manager *)

(** [unsigned char basepoint[ECC25519_KEYSIZE] = {9}] of [ecc25519_make_key] *)
Definition basepoint : list byte := x09 :: repeat x00 31.

Section KeyManager.

(** The error codes of [error-crypt.h] and the random source of [random.h]
    are declared outside the source tree; they are taken as parameters. *)
Variables ECC_BAD_ARG_E BAD_FUNC_ARG BUFFER_E : Z.

Variable RNG : Type.

(** [RNG_GenerateBlock(rng, n, sz)]: the return value, the block written to
    [n], and the new state of the generator. *)
Variable RNG_GenerateBlock : RNG -> Z -> Z * list byte * RNG.

(* key size *)
Definition ecc25519_size (key : option ecc25519_key) : result Z :=
  match key with
  | None => Ok 0
  | Some key => dp <- deref (key_dp key) ;; Ok (size dp)
  end.

Definition ecc25519_make_key (rng : option RNG) (keysize : Z) (key : option ecc25519_key)
  : result (Z * option RNG * option ecc25519_key) :=
  let p := repeat x00 32 in
  match key, rng with
  | Some key0, Some rng0 =>
      (* currently only a key size of 32 bytes is used *)
      if negb (keysize =? ECC25519_KEYSIZE) then Ok (ECC_BAD_ARG_E, rng, key) else
      (* get random number from RNG *)
      let '(err, n, rng1) := RNG_GenerateBlock rng0 keysize in
      if negb (err =? 0) then Ok (err, Some rng1, key) else
      let sz := Z.to_nat keysize in
      kp <- for_loop sz 0 (fun i kp => v <- load n i ;; store kp i v) (point (key_k key0)) ;;
      kp <- clamp kp ;;
      (* compute public key *)
      r <- curve25519 p kp basepoint ;;
      let '(err, p) := r in
      (* store keys in big endian format *)
      n <- for_loop sz 0 (fun i n => v <- load kp i ;; store n i v) n ;;
      pk <- for_loop sz 0
              (fun i pk =>
                 let '(pp, kp) := pk in
                 v <- load p i ;;
                 pp <- store pp (sz - i - 1) v ;;
                 v <- load n i ;;
                 kp <- store kp (sz - i - 1) v ;;
                 Ok (pp, kp))
              (point (key_p key0), kp) ;;
      let '(pp, kp) := pk in
      n <- XMEMSET n 0 x00 sz ;;
      Ok (err, Some rng1, Some (set_k (set_p key0 pp) kp))
  | _, _ => Ok (ECC_BAD_ARG_E, rng, key)
  end.

(** Returns the return value and the new contents of [out] and [*outlen]. *)
Definition ecc25519_shared_secret (private_key public_key : option ecc25519_key)
  (out : option (list byte)) (outlen : option Z)
  : result (Z * option (list byte) * option Z) :=
  match private_key, public_key, out, outlen with
  | Some priv, Some pub, Some out0, Some outlen0 =>
      (* avoid implementation fingerprinting *)
      b <- load (point (key_p pub)) 0 ;;
      if byte_to_Z b >? 127 then Ok (ECC_BAD_ARG_E, out, outlen) else
      if outlen0 <? ECC25519_KEYSIZE then Ok (BUFFER_E, out, outlen) else
      p <- XMEMSET (repeat x00 32) 0 x00 32 ;;
      k <- XMEMSET (repeat x00 32) 0 x00 32 ;;
      out1 <- XMEMSET out0 0 x00 (Z.to_nat ECC25519_KEYSIZE) ;;
      pk <- for_loop 32 0
              (fun i pk =>
                 let '(p, k) := pk in
                 v <- load (point (key_p pub)) (32 - i - 1) ;;
                 p <- store p i v ;;
                 v <- load (point (key_k priv)) (32 - i - 1) ;;
                 k <- store k i v ;;
                 Ok (p, k))
              (p, k) ;;
      let '(p, k) := pk in
      r <- curve25519 out1 k p ;;
      let '(err, out2) := r in
      let outlen1 := ECC25519_KEYSIZE in
      p <- XMEMSET p 0 x00 32 ;;
      k <- XMEMSET k 0 x00 32 ;;
      Ok (err, Some out2, Some outlen1)
  | _, _, _, _ => Ok (BAD_FUNC_ARG, out, outlen)
  end.

(* curve25519 uses a serialized string for key representation *)
Definition ecc25519_export_public (key : option ecc25519_key) (out : option (list byte))
  (outLen : option Z) : result (Z * option (list byte) * option Z) :=
  match key, out with
  | Some key0, Some out0 =>
      (* check size of outgoing key *)
      keySz <- ecc25519_size key ;;
      let keySz := to_word32 keySz in
      let offset := 2 in
      (* copy in public key and leave room for length and type byte *)
      out1 <- XMEMCPY out0 (Z.to_nat offset) (point (key_p key0)) 0 (Z.to_nat keySz) ;;
      _ <- deref outLen ;;
      let outLen1 := to_word32 (keySz + offset) in
      (* length and type *)
      out2 <- store out1 0 (byte_of_Z outLen1) ;;
      out3 <- store out2 1 (key_f key0) ;;
      Ok (0, Some out3, Some outLen1)
  | _, _ => Ok (BAD_FUNC_ARG, out, outLen)
  end.

(* import curve25519 public key
   return 0 on success *)
(** [past] is the memory behind the buffer [in].  The arrays [p.point] and
    [k.point] are adjacent members of [ecc25519_key], so what the copy writes
    behind the 32 bytes of [p.point] arrives in [k.point]. *)
Definition ecc25519_import_public (in_ : option (list byte)) (past : nat -> byte) (inLen : Z)
  (key : option ecc25519_key) : result (Z * option ecc25519_key) :=
  (* check size of incoming keys *)
  keySz <- ecc25519_size key ;;
  let keySz := to_word32 keySz in
  let offset := 2 in
  (* check that it is correct size plus length and type *)
  if negb (inLen =? to_word32 (keySz + offset)) then Ok (ECC_BAD_ARG_E, key) else
  in0 <- deref in_ ;;
  let tag := fetch in0 past 1 in
  if negb (byte_to_Z tag =? byte_to_Z montgomery_x_le) then Ok (ECC_BAD_ARG_E, key) else
  key0 <- deref key ;;
  pk <- XMEMCPY_adjacent (point (key_p key0)) (point (key_k key0)) in0 past
          (Z.to_nat offset) (Z.to_nat inLen) ;;
  let '(pp, kp) := pk in
  let key1 := set_k (set_p key0 pp) kp in
  let key2 := set_dp key1 (Some ecc25519_sets_0) in
  Ok (0, Some key2).

(* export curve25519 private key only raw, outLen is in/out size
   return 0 on success *)
Definition ecc25519_export_private_raw (key : option ecc25519_key) (out : option (list byte))
  (outLen : option Z) : result (Z * option (list byte) * option Z) :=
  match key, out, outLen with
  | Some key0, Some out0, Some outLen0 =>
      keySz <- ecc25519_size key ;;
      let keySz := to_word32 keySz in
      if outLen0 <? keySz then Ok (BUFFER_E, out, Some keySz) else
      let outLen1 := keySz in
      out1 <- XMEMSET out0 0 x00 (Z.to_nat outLen1) ;;
      out2 <- XMEMCPY out1 0 (point (key_k key0)) 0 (Z.to_nat outLen1) ;;
      Ok (0, Some out2, Some outLen1)
  | _, _, _ => Ok (ECC_BAD_ARG_E, out, outLen)
  end.

(* curve25519 private key import, public key in serialized format, private raw *)
(** [key->k.point] and [key->p.point] are addresses only; nothing is read or
    written through them, nor through [priv] and [pub], by a copy of no bytes. *)
Definition ecc25519_import_private_raw (priv : option (list byte)) (privSz : Z)
  (pub : option (list byte)) (pubSz : Z) (key : option ecc25519_key)
  : result (Z * option ecc25519_key) :=
  let ret := 0 in
  (* check size of incoming keys *)
  keySz <- ecc25519_size key ;;
  let keySz := to_word32 keySz in
  if negb (privSz =? keySz) || negb (pubSz =? keySz) then Ok (ECC_BAD_ARG_E, key) else
  kp <- XMEMCPY_ptr (option_map (fun key0 => point (key_k key0)) key) priv (Z.to_nat privSz) ;;
  pp <- XMEMCPY_ptr (option_map (fun key0 => point (key_p key0)) key) pub (Z.to_nat pubSz) ;;
  Ok (ret,
      match key, kp, pp with
      | Some key0, Some kp, Some pp => Some (set_p (set_k key0 kp) pp)
      | _, _, _ => key
      end).

Definition ecc25519_init (key : option ecc25519_key) : result (Z * option ecc25519_key) :=
  match key with
  | None => Ok (ECC_BAD_ARG_E, key)
  | Some key0 =>
      (* currently the only format for curve25519 *)
      let key1 := set_f key0 montgomery_x_le in
      let key2 := set_dp key1 (Some ecc25519_sets_0) in
      dp <- deref (key_dp key2) ;;
      let keySz := to_word32 (size dp) in
      kp <- XMEMSET (point (key_k key2)) 0 x00 (Z.to_nat keySz) ;;
      pp <- XMEMSET (point (key_p key2)) 0 x00 (Z.to_nat keySz) ;;
      Ok (0, Some (set_p (set_k key2 kp) pp))
  end.

(** Clean the memory of a key; [sizeof(key->p.point)] is the extent of the array. *)
Definition ecc25519_free (key : option ecc25519_key) : result (option ecc25519_key) :=
  match key with
  | None => Ok key
  | Some key0 =>
      let key1 := set_dp key0 None in
      pp <- XMEMSET (point (key_p key1)) 0 x00 (length (point (key_p key1))) ;;
      let key2 := set_p key1 pp in
      kp <- XMEMSET (point (key_k key2)) 0 x00 (length (point (key_k key2))) ;;
      Ok (Some (set_k key2 kp))
  end.

End KeyManager.

(** ** Sample data for the closed statements *)

Definition sample_key : ecc25519_key :=
  {| key_type := 0; key_idx := 0; key_dp := Some ecc25519_sets_0;
     key_f := montgomery_x_le;
     key_p := {| point := repeat x01 32 |};
     key_k := {| point := repeat x02 32 |} |}.

Definition blank_key : ecc25519_key :=
  {| key_type := 0; key_idx := 0; key_dp := None; key_f := x00;
     key_p := {| point := repeat x00 32 |};
     key_k := {| point := repeat x00 32 |} |}.

(** A peer key whose first stored byte is [0x80]. *)
Definition high_bit_key : ecc25519_key := set_p sample_key (x80 :: repeat x00 31).

(** A random source that delivers 32 bytes [0xff], and one that fails with -1. *)
Definition rng_ff (_ : unit) (_ : Z) : Z * list byte * unit := (0, repeat xff 32, tt).
Definition rng_broken (_ : unit) (_ : Z) : Z * list byte * unit := (-1, repeat x00 32, tt).


(** ** A ladder without deferred swaps *)

(** Bit [pos] of the scalar, as the loop body reads it. *)
Definition ladder_bit (e : list byte) (pos : Z) : Z :=
  Z.land (Z.shiftr (byte_to_Z (nth (Z.to_nat (pos / 8)) e x00)) (Z.land pos 7)) 1.

(** [fe_cswap(x2,x3,b); fe_cswap(z2,z3,b)] on the four registers. *)
Definition cswap_regs (r : ladder_regs) (b : Z) : ladder_regs :=
  let '(x2, z2, x3, z3) := r in
  let '(x2, x3) := fe_cswap x2 x3 b in
  let '(z2, z3) := fe_cswap z2 z3 b in
  (x2, z2, x3, z3).

(** The reference the loop of [curve25519] is compared with: at every bit the
    two pairs are exchanged if the bit is 1, the step is taken, and the pairs
    are exchanged back; no swap is carried from one bit to the next. *)
Fixpoint ladder_ref (e : list byte) (x1 : fe) (n : nat) (r : ladder_regs) : ladder_regs :=
  match n with
  | O => r
  | S n' =>
      let b := ladder_bit e (Z.of_nat n') in
      ladder_ref e x1 n' (cswap_regs (montgomery_step x1 (cswap_regs r b)) b)
  end.

(** ** Further sample data *)

(** [sample_key] as [ecc25519_free] leaves it. *)
Definition wiped_key : ecc25519_key :=
  set_k (set_p (set_dp sample_key None) (repeat x00 32)) (repeat x00 32).

(** The 32 bytes [0xff] with the bits cleared and set as the clamp does. *)
Definition scalar_f8_7f : list byte := xf8 :: repeat xff 30 ++ [x7f].

(** Memory behind an input buffer: the byte [0xaa], then bytes [0xbb]. *)
Definition past_ab (i : nat) : byte :=
  match i with
  | O => xaa
  | _ => xbb
  end.

(** * Facts about bytes, buffers and loops *)

Lemma byte_to_Z_range (b : byte) : 0 <= byte_to_Z b < 256.
Proof. destruct b; vm_compute; split; congruence. Qed.

Lemma byte_of_to_Z (b : byte) : byte_of_Z (byte_to_Z b) = b.
Proof. destruct b; reflexivity. Qed.

Lemma byte_to_of_Z (z : Z) : byte_to_Z (byte_of_Z z) = z mod 256.
Proof.
  unfold byte_of_Z, byte_to_Z.
  pose proof (Z.mod_pos_bound z 256 eq_refl) as Hr.
  destruct (Byte.of_N (Z.to_N (z mod 256))) as [b|] eqn:E.
  - apply Byte.to_of_N in E. rewrite E. lia.
  - apply Byte.of_N_None_iff in E. lia.
Qed.

Lemma byte_to_Z_inj (a b : byte) : byte_to_Z a = byte_to_Z b -> a = b.
Proof. intros H. rewrite <- (byte_of_to_Z a), <- (byte_of_to_Z b), H. reflexivity. Qed.

Lemma byte_and_testbit (b : byte) (m j : Z) :
  0 <= j < 8 ->
  Z.testbit (byte_to_Z (byte_and b m)) j = Z.testbit (byte_to_Z b) j && Z.testbit m j.
Proof.
  intros Hj. unfold byte_and. rewrite byte_to_of_Z.
  change 256 with (2 ^ 8).
  rewrite Z.mod_pow2_bits_low by lia. apply Z.land_spec.
Qed.

Lemma byte_or_testbit (b : byte) (m j : Z) :
  0 <= j < 8 ->
  Z.testbit (byte_to_Z (byte_or b m)) j = Z.testbit (byte_to_Z b) j || Z.testbit m j.
Proof.
  intros Hj. unfold byte_or. rewrite byte_to_of_Z.
  change 256 with (2 ^ 8).
  rewrite Z.mod_pow2_bits_low by lia. apply Z.lor_spec.
Qed.

Lemma byte_bit7 (b : byte) : Z.testbit (byte_to_Z b) 7 = (byte_to_Z b >? 127).
Proof. destruct b; reflexivity. Qed.

(** * Buffers *)

Lemma load_nth (buf : list byte) (i : nat) :
  (i < length buf)%nat -> load buf i = Ok (nth i buf x00).
Proof.
  intros H. unfold load.
  destruct (nth_error buf i) eqn:E.
  - erewrite nth_error_nth by eassumption. reflexivity.
  - apply nth_error_None in E. lia.
Qed.

Lemma store_ok (buf : list byte) (i : nat) (v : byte) :
  (i < length buf)%nat -> store buf i v = Ok (firstn i buf ++ v :: skipn (S i) buf).
Proof.
  intros H. unfold store. destruct (Nat.ltb_spec i (length buf)); [reflexivity|lia].
Qed.

Lemma length_store_val (buf : list byte) (i : nat) (v : byte) :
  (i < length buf)%nat -> length (firstn i buf ++ v :: skipn (S i) buf) = length buf.
Proof.
  intros H. rewrite length_app, length_firstn.
  change (length (v :: skipn (S i) buf)) with (S (length (skipn (S i) buf))).
  rewrite length_skipn. lia.
Qed.

Lemma length_store (buf buf' : list byte) (i : nat) (v : byte) :
  store buf i v = Ok buf' -> length buf' = length buf.
Proof.
  unfold store. destruct (Nat.ltb_spec i (length buf)) as [Hi|]; [|discriminate].
  intros E. assert (buf' = firstn i buf ++ v :: skipn (S i) buf) as -> by congruence.
  apply length_store_val, Hi.
Qed.

Lemma nth_store_same (buf : list byte) (i : nat) (v d : byte) :
  (i < length buf)%nat -> nth i (firstn i buf ++ v :: skipn (S i) buf) d = v.
Proof.
  intros H. rewrite app_nth2; rewrite length_firstn; [|lia].
  replace (i - Nat.min i (length buf))%nat with 0%nat by lia. reflexivity.
Qed.

Lemma nth_store_other (buf : list byte) (i j : nat) (v d : byte) :
  (i < length buf)%nat -> j <> i ->
  nth j (firstn i buf ++ v :: skipn (S i) buf) d = nth j buf d.
Proof.
  intros H Hj.
  rewrite <- (firstn_skipn i buf) at 3.
  destruct (Nat.lt_ge_cases j i) as [Hlt|Hge].
  - rewrite !app_nth1 by (rewrite length_firstn; lia). reflexivity.
  - rewrite !app_nth2 by (rewrite length_firstn; lia).
    rewrite length_firstn. replace (Nat.min i (length buf)) with i by lia.
    destruct (j - i)%nat as [|m] eqn:E; [lia|]. cbn [nth].
    rewrite <- (firstn_skipn 1 (skipn i buf)) at 1.
    rewrite skipn_skipn. replace (1 + i)%nat with (S i) by lia.
    rewrite app_nth2; rewrite length_firstn, length_skipn;
      replace (Nat.min 1 (length buf - i)) with 1%nat by lia; [|lia].
    f_equal. lia.
Qed.

Lemma skipn_nth_cons (l : list byte) (i : nat) :
  (i < length l)%nat -> skipn i l = nth i l x00 :: skipn (S i) l.
Proof.
  revert i. induction l as [|a l IH]; intros i H; cbn [length] in H; [lia|].
  destruct i as [|i]; [reflexivity|].
  cbn [skipn nth]. rewrite IH by lia. reflexivity.
Qed.

Lemma firstn_store_val (buf : list byte) (i : nat) (v : byte) :
  (i < length buf)%nat ->
  firstn (S i) (firstn i buf ++ v :: skipn (S i) buf) = firstn i buf ++ [v].
Proof.
  intros H. rewrite firstn_app, firstn_firstn, length_firstn.
  replace (Nat.min (S i) i) with i by lia.
  replace (S i - Nat.min i (length buf))%nat with 1%nat by lia.
  rewrite firstn_cons, firstn_O. reflexivity.
Qed.

Lemma skipn_store_val (buf : list byte) (i m : nat) (v : byte) :
  (i < length buf)%nat ->
  skipn (S i + m) (firstn i buf ++ v :: skipn (S i) buf) = skipn (S i + m) buf.
Proof.
  intros H. rewrite skipn_app, length_firstn.
  replace (S i + m - Nat.min i (length buf))%nat with (S m) by lia.
  rewrite skipn_cons, skipn_skipn.
  rewrite skipn_firstn_comm. replace (i - (S i + m))%nat with 0%nat by lia.
  rewrite firstn_O. cbn [app]. f_equal. lia.
Qed.

(** The copy loops [for (i = 0; i < n; ++i) dst[i] = src[i]]. *)
Lemma for_loop_copy (src : list byte) (n i : nat) (dst : list byte) :
  (i + n <= length src)%nat -> (i + n <= length dst)%nat ->
  for_loop n i (fun i d => v <- load src i ;; store d i v) dst
  = Ok (firstn i dst ++ firstn n (skipn i src) ++ skipn (i + n) dst).
Proof.
  revert i dst. induction n as [|n IH]; intros i dst Hs Hd.
  - cbn [for_loop]. rewrite firstn_O, Nat.add_0_r. cbn [app].
    rewrite firstn_skipn. reflexivity.
  - cbn [for_loop]. rewrite load_nth by lia. cbn [bind].
    rewrite store_ok by lia. cbn [bind].
    rewrite IH; [|lia|rewrite length_store_val; lia].
    f_equal.
    rewrite firstn_store_val, skipn_store_val by lia.
    rewrite (skipn_nth_cons src i) by lia. rewrite firstn_cons.
    rewrite <- app_assoc. cbn [app].
    replace (i + S n)%nat with (S i + n)%nat by lia. reflexivity.
Qed.

Lemma for_loop_copy_all (src dst : list byte) (n : nat) :
  length src = n -> length dst = n ->
  for_loop n 0 (fun i d => v <- load src i ;; store d i v) dst = Ok src.
Proof.
  intros Hs Hd. rewrite for_loop_copy by lia.
  rewrite firstn_O, skipn_O. cbn [app Nat.add]. rewrite skipn_all2 by lia.
  rewrite firstn_all2 by lia. rewrite app_nil_r. reflexivity.
Qed.

(** The loops that store back to front: [dst[n - i - 1] = src[i]]. *)
Lemma for_loop_rev (src : list byte) (sz n i : nat) (dst : list byte) :
  (i + n = sz)%nat -> length src = sz -> (n <= length dst)%nat ->
  for_loop n i (fun i d => v <- load src i ;; store d (sz - i - 1) v) dst
  = Ok (rev (skipn i src) ++ skipn n dst).
Proof.
  revert i dst. induction n as [|n IH]; intros i dst Hi Hs Hd.
  - cbn [for_loop]. rewrite skipn_all2 by lia. rewrite skipn_O. reflexivity.
  - cbn [for_loop]. rewrite load_nth by lia. cbn [bind].
    replace (sz - i - 1)%nat with n by lia.
    rewrite store_ok by lia. cbn [bind].
    rewrite IH; [|lia|lia|rewrite length_store_val; lia].
    f_equal.
    rewrite (skipn_nth_cons src i) by lia. cbn [rev].
    rewrite <- app_assoc. cbn [app]. f_equal.
    rewrite skipn_app, length_firstn.
    replace (n - Nat.min n (length dst))%nat with 0%nat by lia.
    rewrite skipn_O, skipn_firstn_comm. replace (n - n)%nat with 0%nat by lia.
    rewrite firstn_O. reflexivity.
Qed.

(** The loop of [ecc25519_shared_secret]: [dst[i] = src[n - i - 1]]. *)
Lemma for_loop_rev_src (src : list byte) (sz n i : nat) (dst : list byte) :
  (i + n = sz)%nat -> length src = sz -> length dst = sz ->
  for_loop n i (fun i d => v <- load src (sz - i - 1) ;; store d i v) dst
  = Ok (firstn i dst ++ skipn i (rev src)).
Proof.
  revert i dst. induction n as [|n IH]; intros i dst Hi Hs Hd.
  - cbn [for_loop]. rewrite skipn_all2 by (rewrite length_rev; lia).
    rewrite firstn_all2 by lia. rewrite app_nil_r. reflexivity.
  - cbn [for_loop]. rewrite load_nth by lia. cbn [bind].
    rewrite store_ok by lia. cbn [bind].
    rewrite IH; [|lia|lia|rewrite length_store_val; lia].
    f_equal.
    rewrite firstn_store_val by lia.
    rewrite (skipn_nth_cons (rev src) i) by (rewrite length_rev; lia).
    rewrite <- app_assoc. cbn [app]. do 2 f_equal.
    rewrite rev_nth by lia. f_equal. lia.
Qed.

Lemma for_loop_pair {A B : Type} (body : nat -> A * B -> result (A * B))
  (f : nat -> A -> result A) (g : nat -> B -> result B) (n i : nat) (a a' : A) (b b' : B) :
  (forall i a b, body i (a, b) = a1 <- f i a ;; b1 <- g i b ;; Ok (a1, b1)) ->
  for_loop n i f a = Ok a' -> for_loop n i g b = Ok b' ->
  for_loop n i body (a, b) = Ok (a', b').
Proof.
  intros Hbody. revert i a b. induction n as [|n IH]; intros i a b Ha Hb.
  - cbn [for_loop] in *. congruence.
  - cbn [for_loop] in *. rewrite Hbody.
    destruct (f i a) as [a1|]; [|discriminate].
    destruct (g i b) as [b1|]; [|discriminate].
    cbn [bind] in *. apply IH; assumption.
Qed.

(** * The clamp *)

Lemma clamp_ok (e : list byte) :
  length e = 32%nat ->
  exists e', clamp e = Ok e' /\ length e' = 32%nat /\
    nth 0 e' x00 = byte_and (nth 0 e x00) 248 /\
    nth 31 e' x00 = byte_or (byte_and (nth 31 e x00) 127) 64 /\
    (forall i, i <> 0%nat -> i <> 31%nat -> nth i e' x00 = nth i e x00).
Proof.
  intros H. unfold clamp.
  rewrite load_nth by lia. cbn [bind].
  rewrite store_ok by lia. cbn [bind].
  set (e1 := firstn 0 e ++ byte_and (nth 0 e x00) 248 :: skipn 1 e).
  assert (H1 : length e1 = 32%nat) by (unfold e1; rewrite length_store_val; lia).
  rewrite load_nth by lia. cbn [bind].
  rewrite store_ok by lia. cbn [bind].
  set (e2 := firstn 31 e1 ++ byte_and (nth 31 e1 x00) 127 :: skipn 32 e1).
  assert (H2 : length e2 = 32%nat) by (unfold e2; rewrite length_store_val; lia).
  rewrite load_nth by lia. cbn [bind].
  rewrite store_ok by lia.
  eexists. split; [reflexivity|].
  split; [rewrite length_store_val; lia|].
  split; [|split].
  - rewrite nth_store_other by lia. unfold e2. rewrite nth_store_other by lia.
    unfold e1. apply nth_store_same. lia.
  - rewrite nth_store_same by lia. unfold e2 at 1. rewrite nth_store_same by lia.
    unfold e1. rewrite nth_store_other by lia. reflexivity.
  - intros i Hi0 Hi31. rewrite nth_store_other by lia.
    unfold e2. rewrite nth_store_other by lia.
    unfold e1. rewrite nth_store_other by lia. reflexivity.
Qed.

Lemma length_le_encode (n : nat) (z : Z) : length (le_encode n z) = n.
Proof. revert z. induction n as [|n IH]; intros z; cbn [le_encode length]; [|rewrite IH]; reflexivity. Qed.

Lemma length_curve25519_ladder (e p : list byte) : length (curve25519_ladder e p) = 32%nat.
Proof.
  unfold curve25519_ladder.
  destruct (ladder_loop _ _ _ _) as [[[[x2 z2] x3] z3] swap].
  destruct (fe_cswap x2 x3 swap), (fe_cswap z2 z3 swap).
  apply length_le_encode.
Qed.

Lemma curve25519_ok (q n p : list byte) :
  length n = 32%nat -> (32 <= length p)%nat -> (32 <= length q)%nat ->
  exists e, clamp n = Ok e /\ length e = 32%nat /\
    curve25519 q n p = Ok (0, curve25519_ladder e p ++ skipn 32 q).
Proof.
  intros Hn Hp Hq.
  destruct (clamp_ok n Hn) as (e & He & Hlen & _).
  exists e. split; [assumption|]. split; [assumption|].
  unfold curve25519.
  rewrite for_loop_copy_all by (rewrite ?repeat_length; lia). cbn [bind].
  rewrite He. cbn [bind].
  destruct (Nat.leb_spec 32 (length p)); [|lia]. cbn [bind].
  unfold XMEMCPY. rewrite length_curve25519_ladder.
  destruct (Nat.leb_spec (0 + 32) 32); [|lia].
  destruct (Nat.leb_spec (0 + 32) (length q)); [|lia].
  cbn [andb bind]. rewrite firstn_O, skipn_O. cbn [app Nat.add].
  rewrite firstn_all2 by (rewrite length_curve25519_ladder; lia). reflexivity.
Qed.

Lemma clamp_byte0_idem (b : byte) : byte_and (byte_and b 248) 248 = byte_and b 248.
Proof. destruct b; reflexivity. Qed.

Lemma clamp_byte31_idem (b : byte) :
  byte_or (byte_and (byte_or (byte_and b 127) 64) 127) 64 = byte_or (byte_and b 127) 64.
Proof. destruct b; reflexivity. Qed.

Lemma clamp_idem (n e : list byte) :
  length n = 32%nat -> clamp n = Ok e -> clamp e = Ok e.
Proof.
  intros Hn He.
  destruct (clamp_ok n Hn) as (e1 & He1 & Hl1 & H0 & H31 & Hi).
  assert (e1 = e) by congruence. subst e1.
  destruct (clamp_ok e Hl1) as (e2 & He2 & Hl2 & H0' & H31' & Hi').
  rewrite He2. f_equal.
  apply (nth_ext _ _ x00 x00); [lia|].
  intros i Hlt.
  destruct (Nat.eq_dec i 0) as [->|Hn0].
  - rewrite H0', H0. apply clamp_byte0_idem.
  - destruct (Nat.eq_dec i 31) as [->|Hn31].
    + rewrite H31', H31. apply clamp_byte31_idem.
    + apply Hi'; assumption.
Qed.

Section KeyManagerFacts.

Variables ECC_BAD_ARG_E BAD_FUNC_ARG BUFFER_E : Z.
Variable RNG : Type.
Variable RNG_GenerateBlock : RNG -> Z -> Z * list byte * RNG.


Lemma make_key_ok (rng rng' : RNG) (key : ecc25519_key) (n : list byte) :
  wf_key key -> RNG_GenerateBlock rng 32 = (0, n, rng') -> length n = 32%nat ->
  exists e, clamp n = Ok e /\ length e = 32%nat /\
    ecc25519_make_key ECC_BAD_ARG_E RNG RNG_GenerateBlock (Some rng) 32 (Some key)
    = Ok (0, Some rng',
          Some (set_k (set_p key (rev (curve25519_ladder e basepoint))) (rev e))).
Proof.
  intros [Hp Hk] Hrng Hn.
  destruct (clamp_ok n Hn) as (e & He & Hle & _).
  exists e. split; [assumption|]. split; [assumption|].
  unfold ecc25519_make_key. change (32 =? ECC25519_KEYSIZE) with true. cbn [negb].
  rewrite Hrng. change (0 =? 0) with true. cbn [negb].
  change (Z.to_nat 32) with 32%nat.
  rewrite for_loop_copy_all by lia. cbn [bind].
  rewrite He. cbn [bind].
  destruct (curve25519_ok (repeat x00 32) e basepoint) as (e2 & He2 & _ & Hc);
    [assumption|unfold basepoint; cbn [length]; rewrite repeat_length; lia
    |rewrite repeat_length; lia|].
  rewrite (clamp_idem n e Hn He) in He2. assert (e2 = e) by congruence. subst e2.
  rewrite Hc. cbn [bind].
  rewrite skipn_all2 by (rewrite repeat_length; lia). rewrite app_nil_r.
  rewrite for_loop_copy_all by lia. cbn [bind].
  erewrite (for_loop_pair _
              (fun i d => v <- load (curve25519_ladder e basepoint) i ;; store d (32 - i - 1) v)
              (fun i d => v <- load e i ;; store d (32 - i - 1) v)).
  - cbn [bind]. unfold XMEMSET. rewrite Hle. cbn [Nat.add Nat.leb bind]. reflexivity.
  - intros i a b.
    destruct (load _ i); cbn [bind]; [|reflexivity].
    destruct (store a _ _); cbn [bind]; [|reflexivity].
    destruct (load e i); cbn [bind]; [|reflexivity].
    destruct (store b _ _); reflexivity.
  - rewrite (for_loop_rev _ 32) by (rewrite ?length_curve25519_ladder; lia).
    rewrite skipn_O, skipn_all2 by lia. rewrite app_nil_r. reflexivity.
  - rewrite (for_loop_rev _ 32) by lia.
    rewrite skipn_O, skipn_all2 by lia. rewrite app_nil_r. reflexivity.
Qed.

Lemma shared_secret_ok (priv pub : ecc25519_key) (out : list byte) (outlen : Z) (b : byte) :
  wf_key priv -> wf_key pub -> (32 <= length out)%nat -> 32 <= outlen ->
  nth_error (point (key_p pub)) 0 = Some b -> byte_to_Z b <= 127 ->
  exists e, clamp (rev (point (key_k priv))) = Ok e /\ length e = 32%nat /\
    ecc25519_shared_secret ECC_BAD_ARG_E BAD_FUNC_ARG BUFFER_E
      (Some priv) (Some pub) (Some out) (Some outlen)
    = Ok (0, Some (curve25519_ladder e (rev (point (key_p pub))) ++ skipn 32 out), Some 32).
Proof.
  intros [_ Hk] [Hp _] Hout Hlen Hb Hb127.
  assert (Hrk : length (rev (point (key_k priv))) = 32%nat) by (rewrite length_rev; assumption).
  assert (Hrp : length (rev (point (key_p pub))) = 32%nat) by (rewrite length_rev; assumption).
  destruct (clamp_ok _ Hrk) as (e & He & Hle & _).
  exists e. split; [assumption|]. split; [assumption|].
  assert (Hld : load (point (key_p pub)) 0 = Ok b) by (unfold load; rewrite Hb; reflexivity).
  unfold ecc25519_shared_secret. rewrite Hld. cbn [bind].
  destruct (Z.gtb_spec (byte_to_Z b) 127); [lia|].
  unfold ECC25519_KEYSIZE. destruct (Z.ltb_spec outlen 32); [lia|].
  change (XMEMSET (repeat x00 32) 0 x00 32) with (Ok (repeat x00 32)). cbn [bind].
  change (Z.to_nat 32) with 32%nat.
  unfold XMEMSET at 1. destruct (Nat.leb_spec (0 + 32) (length out)); [|lia]. cbn [bind].
  erewrite (for_loop_pair _
              (fun i d => v <- load (point (key_p pub)) (32 - i - 1) ;; store d i v)
              (fun i d => v <- load (point (key_k priv)) (32 - i - 1) ;; store d i v)).
  - cbn [bind].
    destruct (curve25519_ok (firstn 0 out ++ repeat x00 32 ++ skipn (0 + 32) out)
                (rev (point (key_k priv))) (rev (point (key_p pub)))) as (e2 & He2 & _ & Hc);
      [assumption|lia|rewrite !length_app, repeat_length; lia|].
    assert (e2 = e) by congruence. subst e2.
    rewrite Hc. cbn [bind].
    unfold XMEMSET. rewrite Hrp, Hrk. cbn [Nat.add Nat.leb bind].
    reflexivity.
  - intros i a0 b0.
    destruct (load (point (key_p pub)) (32 - i - 1)); cbn [bind]; [|reflexivity].
    destruct (store a0 _ _); cbn [bind]; [|reflexivity].
    destruct (load (point (key_k priv)) (32 - i - 1)); cbn [bind]; [|reflexivity].
    destruct (store b0 _ _); reflexivity.
  - rewrite (for_loop_rev_src _ 32) by (rewrite ?repeat_length; lia).
    rewrite firstn_O, skipn_O. reflexivity.
  - rewrite (for_loop_rev_src _ 32) by (rewrite ?repeat_length; lia).
    rewrite firstn_O, skipn_O. reflexivity.
Qed.

End KeyManagerFacts.

(** * Copies that leave their buffers *)

Lemma fetch_inside (src : list byte) (past : nat -> byte) (i : nat) (b : byte) :
  nth_error src i = Some b -> fetch src past i = b.
Proof. intros H. unfold fetch. rewrite H. reflexivity. Qed.

Lemma fetch_nth (src : list byte) (past : nat -> byte) (i : nat) :
  (i < length src)%nat -> fetch src past i = nth i src x00.
Proof.
  intros H. unfold fetch. destruct (nth_error src i) eqn:E.
  - symmetry. apply nth_error_nth. assumption.
  - apply nth_error_None in E. lia.
Qed.

Lemma fetch_past (src : list byte) (past : nat -> byte) (i : nat) :
  (length src <= i)%nat -> fetch src past i = past (i - length src)%nat.
Proof.
  intros H. unfold fetch. destruct (nth_error src i) eqn:E; [|reflexivity].
  assert (nth_error src i <> None) as Hn by congruence.
  apply nth_error_Some in Hn. lia.
Qed.

Lemma map_fetch_inside (src : list byte) (past : nat -> byte) (n soff : nat) :
  (soff + n <= length src)%nat ->
  map (fetch src past) (seq soff n) = firstn n (skipn soff src).
Proof.
  revert soff. induction n as [|n IH]; intros soff H; [reflexivity|].
  cbn [seq map]. rewrite (skipn_nth_cons src soff) by lia. cbn [firstn].
  rewrite fetch_nth by lia. rewrite IH by lia. reflexivity.
Qed.

Lemma length_map_fetch (src : list byte) (past : nat -> byte) (soff n : nat) :
  length (map (fetch src past) (seq soff n)) = n.
Proof. rewrite length_map, length_seq. reflexivity. Qed.

Lemma XMEMCPY_adjacent_length (dst next src : list byte) (past : nat -> byte)
  (soff n : nat) (dst' next' : list byte) :
  XMEMCPY_adjacent dst next src past soff n = Ok (dst', next') ->
  length dst' = length dst /\ length next' = length next.
Proof.
  unfold XMEMCPY_adjacent.
  destruct (Nat.leb_spec n (length dst + length next)) as [Hn|]; [|discriminate].
  intros [= <- <-].
  rewrite length_firstn, length_skipn, !length_app, length_map_fetch, length_skipn,
    length_app.
  lia.
Qed.

Lemma firstn_length_app (l r : list byte) : firstn (length l) (l ++ r) = l.
Proof. rewrite firstn_app, Nat.sub_diag, firstn_O, firstn_all, app_nil_r. reflexivity. Qed.

Lemma skipn_length_app (l r : list byte) : skipn (length l) (l ++ r) = r.
Proof. rewrite skipn_app, Nat.sub_diag, skipn_O, skipn_all. reflexivity. Qed.

(** The copy of [ecc25519_import_public] on an accepted input: 34 bytes from
    [src + 2] into a 32-byte array and the first two bytes of its neighbour. *)
Lemma XMEMCPY_adjacent_34 (dst next src : list byte) (past : nat -> byte) :
  length dst = 32%nat -> length next = 32%nat ->
  XMEMCPY_adjacent dst next src past 2 34
  = Ok (map (fetch src past) (seq 2 32),
        fetch src past 34 :: fetch src past 35 :: skipn 2 next).
Proof.
  intros Hd Hn. unfold XMEMCPY_adjacent. rewrite Hd, Hn.
  change (34 <=? 32 + 32)%nat with true. cbv iota.
  change (seq 2 34) with (seq 2 32 ++ [34; 35])%nat.
  rewrite map_app. cbn [map].
  assert (Hs : skipn 34 (dst ++ next) = skipn 2 next).
  { rewrite skipn_app, Hd. rewrite (skipn_all2 dst) by lia. reflexivity. }
  rewrite Hs.
  set (data := map (fetch src past) (seq 2 32)).
  set (tail := [fetch src past 34; fetch src past 35] ++ skipn 2 next).
  assert (Hl : length data = 32%nat) by apply length_map_fetch.
  pose proof (firstn_length_app data tail) as E1.
  pose proof (skipn_length_app data tail) as E2.
  rewrite Hl in E1, E2.
  rewrite <- app_assoc. fold tail. rewrite E1, E2. reflexivity.
Qed.

Section ImportFacts.

Variables ECC_BAD_ARG_E BAD_FUNC_ARG : Z.

Lemma import_public_accepted (in0 : list byte) (past : nat -> byte) (key : ecc25519_key) :
  wf_key key -> key_dp key = Some ecc25519_sets_0 ->
  fetch in0 past 1 = montgomery_x_le ->
  ecc25519_import_public ECC_BAD_ARG_E (Some in0) past 34 (Some key)
  = Ok (0, Some (set_dp (set_k (set_p key (map (fetch in0 past) (seq 2 32)))
                               (fetch in0 past 34 :: fetch in0 past 35
                                :: skipn 2 (point (key_k key))))
                        (Some ecc25519_sets_0))).
Proof.
  intros [Hp Hk] Hdp Htag. unfold ecc25519_import_public, ecc25519_size.
  rewrite Hdp. cbn [deref bind].
  change (to_word32 (size ecc25519_sets_0)) with 32.
  change (34 =? to_word32 (32 + 2)) with true. cbn [negb].
  rewrite Htag, Z.eqb_refl. cbn [negb].
  change (Z.to_nat 2) with 2%nat. change (Z.to_nat 34) with 34%nat.
  rewrite XMEMCPY_adjacent_34 by assumption. reflexivity.
Qed.

Lemma import_public_refused (in_ : option (list byte)) (past : nat -> byte) (inLen : Z)
  (key : ecc25519_key) :
  key_dp key = Some ecc25519_sets_0 ->
  inLen <> 34 \/ (exists in0, in_ = Some in0 /\ fetch in0 past 1 <> montgomery_x_le) ->
  ecc25519_import_public ECC_BAD_ARG_E in_ past inLen (Some key)
  = Ok (ECC_BAD_ARG_E, Some key).
Proof.
  intros Hdp H. unfold ecc25519_import_public, ecc25519_size.
  rewrite Hdp. cbn [deref bind].
  change (to_word32 (size ecc25519_sets_0)) with 32.
  change (to_word32 (32 + 2)) with 34.
  destruct (Z.eqb_spec inLen 34) as [->|Hne]; cbn [negb]; [|reflexivity].
  destruct H as [H|(in0 & -> & Htag)]; [contradiction|]. cbn [deref bind].
  destruct (Z.eqb_spec (byte_to_Z (fetch in0 past 1)) (byte_to_Z montgomery_x_le)) as [E|E];
    cbn [negb]; [|reflexivity].
  apply byte_to_Z_inj in E. contradiction.
Qed.

(** What [ecc25519_export_public] writes for a key with the curve25519
    parameters. *)
Lemma export_public_value (key : ecc25519_key) (out : list byte) (outLen : Z) :
  key_dp key = Some ecc25519_sets_0 -> length (point (key_p key)) = 32%nat ->
  (34 <= length out)%nat ->
  ecc25519_export_public BAD_FUNC_ARG (Some key) (Some out) (Some outLen)
  = Ok (0, Some (x22 :: key_f key :: point (key_p key) ++ skipn 34 out), Some 34).
Proof.
  intros Hdp Hp Hout. unfold ecc25519_export_public, ecc25519_size.
  rewrite Hdp. cbn [deref bind].
  change (to_word32 (size ecc25519_sets_0)) with 32.
  change (Z.to_nat 2) with 2%nat. change (Z.to_nat 32) with 32%nat.
  unfold XMEMCPY. rewrite Hp.
  destruct (Nat.leb_spec (2 + 32) (length out)); [|lia]. cbn [Nat.leb Nat.add andb bind].
  change (to_word32 (32 + 2)) with 34. change (byte_of_Z 34) with x22.
  rewrite skipn_O, (firstn_all2 (point (key_p key))) by lia.
  destruct out as [|o0 [|o1 out']]; cbn [length] in Hout; try lia.
  unfold store. cbn. reflexivity.
Qed.

(** The key [ecc25519_init] leaves. *)
Lemma init_value (key : ecc25519_key) :
  wf_key key ->
  ecc25519_init ECC_BAD_ARG_E (Some key)
  = Ok (0, Some {| key_type := key_type key; key_idx := key_idx key;
                   key_dp := Some ecc25519_sets_0; key_f := montgomery_x_le;
                   key_p := {| point := repeat x00 32 |};
                   key_k := {| point := repeat x00 32 |} |}).
Proof.
  intros [Hp Hk]. unfold ecc25519_init.
  cbn [set_dp set_f key_dp key_k key_p deref bind].
  change (Z.to_nat (to_word32 (size ecc25519_sets_0))) with 32%nat.
  unfold XMEMSET. cbn [Nat.add]. rewrite Hk. cbn [Nat.leb bind set_k key_p].
  rewrite Hp. cbn [Nat.leb bind].
  rewrite !firstn_O. cbn [app].
  rewrite !skipn_all2 by lia. rewrite !app_nil_r. reflexivity.
Qed.

End ImportFacts.

(** * The claims on the key manager *)

Lemma clamp_byte0_low (b : byte) : Z.land (byte_to_Z (byte_and b 248)) 7 = 0.
Proof. destruct b; reflexivity. Qed.

Lemma clamp_byte31_top (b : byte) :
  Z.land (byte_to_Z (byte_or (byte_and b 127) 64)) 128 = 0.
Proof. destruct b; reflexivity. Qed.

Lemma clamp_byte31_bit6 (b : byte) :
  Z.land (byte_to_Z (byte_or (byte_and b 127) 64)) 64 = 64.
Proof. destruct b; reflexivity. Qed.

Lemma testbit_248 (j : Z) : 3 <= j < 8 -> Z.testbit 248 j = true.
Proof.
  intros H. assert (j = 3 \/ j = 4 \/ j = 5 \/ j = 6 \/ j = 7) as Hj by lia.
  destruct Hj as [->|[->|[->|[->| ->]]]]; reflexivity.
Qed.

Lemma testbit_127_64 (j : Z) :
  0 <= j < 6 -> Z.testbit 127 j = true /\ Z.testbit 64 j = false.
Proof.
  intros H. assert (j = 0 \/ j = 1 \/ j = 2 \/ j = 3 \/ j = 4 \/ j = 5) as Hj by lia.
  destruct Hj as [->|[->|[->|[->|[->| ->]]]]]; split; reflexivity.
Qed.

Section KeyManagerClaims.

Variables ECC_BAD_ARG_E BAD_FUNC_ARG BUFFER_E : Z.
Variable RNG : Type.
Variable RNG_GenerateBlock : RNG -> Z -> Z * list byte * RNG.

(** C6: for a 32-byte scalar [n] the clamp yields [e] with the low three bits
    of [e[0]] clear, bit 7 of [e[31]] clear and bit 6 of [e[31]] set, every
    other bit as in [n]; [curve25519] runs its ladder on this [e], and
    [ecc25519_make_key] stores this [e] (back to front) as the private key. *)
Theorem clamp_spec (n : list byte) :
  length n = 32%nat ->
  exists e, clamp n = Ok e /\ length e = 32%nat /\
    Z.land (byte_to_Z (nth 0 e x00)) 7 = 0 /\
    Z.land (byte_to_Z (nth 31 e x00)) 128 = 0 /\
    Z.land (byte_to_Z (nth 31 e x00)) 64 = 64 /\
    (forall (i : nat) (j : Z), (i < 32)%nat -> 0 <= j < 8 ->
       ~ (i = 0%nat /\ j < 3) -> ~ (i = 31%nat /\ 6 <= j) ->
       Z.testbit (byte_to_Z (nth i e x00)) j = Z.testbit (byte_to_Z (nth i n x00)) j) /\
    (forall q p, (32 <= length p)%nat -> (32 <= length q)%nat ->
       curve25519 q n p = Ok (0, curve25519_ladder e p ++ skipn 32 q)) /\
    (forall (rng rng' : RNG) (key : ecc25519_key),
       wf_key key -> RNG_GenerateBlock rng 32 = (0, n, rng') ->
       exists key',
         ecc25519_make_key ECC_BAD_ARG_E RNG RNG_GenerateBlock (Some rng) 32 (Some key)
         = Ok (0, Some rng', Some key') /\
         point (key_k key') = rev e).
Proof.
  intros Hn.
  destruct (clamp_ok n Hn) as (e & He & Hle & H0 & H31 & Hi).
  exists e. split; [assumption|]. split; [assumption|].
  split; [rewrite H0; apply clamp_byte0_low|].
  split; [rewrite H31; apply clamp_byte31_top|].
  split; [rewrite H31; apply clamp_byte31_bit6|].
  split; [|split].
  - intros i j Hlt Hj Hlow Htop.
    destruct (Nat.eq_dec i 0) as [->|Hi0].
    + rewrite H0, byte_and_testbit by lia.
      rewrite testbit_248 by lia. apply andb_true_r.
    + destruct (Nat.eq_dec i 31) as [->|Hi31].
      * rewrite H31, byte_or_testbit, byte_and_testbit by lia.
        destruct (testbit_127_64 j) as [-> ->]; [lia|].
        rewrite andb_true_r, orb_false_r. reflexivity.
      * rewrite Hi by assumption. reflexivity.
  - intros q p Hp Hq.
    destruct (curve25519_ok q n p Hn Hp Hq) as (e' & He' & _ & Hc).
    assert (e' = e) by congruence. subst e'. exact Hc.
  - intros rng rng' key Hwf Hrng.
    destruct (make_key_ok ECC_BAD_ARG_E RNG RNG_GenerateBlock rng rng' key n Hwf Hrng Hn)
      as (e' & He' & _ & Hmk).
    assert (e' = e) by congruence. subst e'.
    eexists. split; [exact Hmk|]. reflexivity.
Qed.

(** C7: [ecc25519_make_key] stores the clamped scalar and the ladder's output
    back to front; [ecc25519_shared_secret] turns the stored scalar and the
    peer's stored point around before the ladder and writes the ladder's 32
    bytes to [out] as they are. *)
Theorem byte_order_of_keys_and_secret (rng rng' : RNG) (key : ecc25519_key) (n : list byte)
  (priv pub : ecc25519_key) (out : list byte) (outlen : Z) (b : byte) :
  wf_key key -> RNG_GenerateBlock rng 32 = (0, n, rng') -> length n = 32%nat ->
  wf_key priv -> wf_key pub -> (32 <= length out)%nat -> 32 <= outlen ->
  nth_error (point (key_p pub)) 0 = Some b -> byte_to_Z b <= 127 ->
  (exists e key', clamp n = Ok e /\
     ecc25519_make_key ECC_BAD_ARG_E RNG RNG_GenerateBlock (Some rng) 32 (Some key)
     = Ok (0, Some rng', Some key') /\
     point (key_k key') = rev e /\
     point (key_p key') = rev (curve25519_ladder e basepoint)) /\
  (exists e, clamp (rev (point (key_k priv))) = Ok e /\
     ecc25519_shared_secret ECC_BAD_ARG_E BAD_FUNC_ARG BUFFER_E
       (Some priv) (Some pub) (Some out) (Some outlen)
     = Ok (0, Some (curve25519_ladder e (rev (point (key_p pub))) ++ skipn 32 out),
           Some 32)).
Proof.
  intros Hwf Hrng Hn Hpriv Hpub Hout Hlen Hb Hb127. split.
  - destruct (make_key_ok ECC_BAD_ARG_E RNG RNG_GenerateBlock rng rng' key n Hwf Hrng Hn)
      as (e & He & _ & Hmk).
    exists e. eexists. split; [exact He|]. split; [exact Hmk|]. split; reflexivity.
  - destruct (shared_secret_ok ECC_BAD_ARG_E BAD_FUNC_ARG BUFFER_E
                priv pub out outlen b Hpriv Hpub Hout Hlen Hb Hb127) as (e & He & _ & Hs).
    exists e. split; assumption.
Qed.

(** C8: when [RNG_GenerateBlock] fails, [ecc25519_make_key] returns the
    generator's error code and the key is the one that was passed in. *)
Theorem make_key_rng_failure (rng rng' : RNG) (key : ecc25519_key) (err : Z) (n : list byte) :
  RNG_GenerateBlock rng 32 = (err, n, rng') -> err <> 0 ->
  ecc25519_make_key ECC_BAD_ARG_E RNG RNG_GenerateBlock (Some rng) 32 (Some key)
  = Ok (err, Some rng', Some key).
Proof.
  intros Hrng Herr. unfold ecc25519_make_key.
  change (32 =? ECC25519_KEYSIZE) with true. cbn [negb]. rewrite Hrng.
  destruct (Z.eqb_spec err 0); [contradiction|]. reflexivity.
Qed.


(** C3, as amended: with a length below 32, [ecc25519_export_private_raw]
    returns [BUFFER_E], sets [*outLen] to 32 and leaves [out] as it was;
    [ecc25519_shared_secret] returns [BUFFER_E] and leaves both [out] and
    [*outlen] as they were. *)
Theorem buffer_too_small (key priv pub : ecc25519_key) (out : list byte) (outlen : Z) (b : byte) :
  key_dp key = Some ecc25519_sets_0 -> outlen < 32 ->
  nth_error (point (key_p pub)) 0 = Some b -> byte_to_Z b <= 127 ->
  ecc25519_export_private_raw ECC_BAD_ARG_E BUFFER_E (Some key) (Some out) (Some outlen)
  = Ok (BUFFER_E, Some out, Some 32) /\
  ecc25519_shared_secret ECC_BAD_ARG_E BAD_FUNC_ARG BUFFER_E
    (Some priv) (Some pub) (Some out) (Some outlen)
  = Ok (BUFFER_E, Some out, Some outlen).
Proof.
  intros Hdp Hlen Hb Hb127. split.
  - unfold ecc25519_export_private_raw, ecc25519_size. rewrite Hdp. cbn [deref bind].
    change (to_word32 (size ecc25519_sets_0)) with 32.
    destruct (Z.ltb_spec outlen 32); [reflexivity|lia].
  - unfold ecc25519_shared_secret, load. rewrite Hb. cbn [bind].
    destruct (Z.gtb_spec (byte_to_Z b) 127); [lia|].
    unfold ECC25519_KEYSIZE. destruct (Z.ltb_spec outlen 32); [reflexivity|lia].
Qed.

(** Where [ecc25519_size] is guarded: it returns 0 for a null key and the size
    of the domain parameters, 32 for the entry of [ecc25519_sets], for a key
    whose domain parameters are set. *)
Theorem size_of_key (key : ecc25519_key) (dp : ecc25519_set_type) :
  key_dp key = Some dp ->
  ecc25519_size None = Ok 0 /\
  ecc25519_size (Some key) = Ok (size dp) /\
  (dp = ecc25519_sets_0 -> ecc25519_size (Some key) = Ok 32).
Proof.
  intros Hdp. split; [reflexivity|].
  unfold ecc25519_size. rewrite Hdp. cbn [deref bind].
  split; [reflexivity|]. intros ->. reflexivity.
Qed.

(** C5: a peer point whose first stored byte has bit 7 set is refused with
    [ECC_BAD_ARG_E]; [out] and [*outlen] are as they were. *)
Theorem shared_secret_rejects_high_bit (priv pub : ecc25519_key) (out : list byte)
  (outlen : Z) (b : byte) :
  nth_error (point (key_p pub)) 0 = Some b -> Z.testbit (byte_to_Z b) 7 = true ->
  ecc25519_shared_secret ECC_BAD_ARG_E BAD_FUNC_ARG BUFFER_E
    (Some priv) (Some pub) (Some out) (Some outlen)
  = Ok (ECC_BAD_ARG_E, Some out, Some outlen).
Proof.
  intros Hb Hbit. rewrite byte_bit7 in Hbit.
  unfold ecc25519_shared_secret, load. rewrite Hb. cbn [bind]. rewrite Hbit. reflexivity.
Qed.

(** C2: for a key with the curve25519 parameters and the format
    [montgomery_x_le], what [ecc25519_export_public] writes is accepted by
    [ecc25519_import_public] on a key fresh from [ecc25519_init]: both calls
    return 0 and the public point of the importing key is, byte for byte, the
    public point of the exporting key. *)
Theorem import_of_export (key blank : ecc25519_key) (out : list byte) (outLen : Z)
  (past : nat -> byte) :
  wf_key key -> key_dp key = Some ecc25519_sets_0 -> key_f key = montgomery_x_le ->
  (34 <= length out)%nat -> wf_key blank ->
  exists out' fresh key',
    ecc25519_export_public BAD_FUNC_ARG (Some key) (Some out) (Some outLen)
    = Ok (0, Some out', Some 34) /\
    firstn 34 out' = x22 :: montgomery_x_le :: point (key_p key) /\
    ecc25519_init ECC_BAD_ARG_E (Some blank) = Ok (0, Some fresh) /\
    ecc25519_import_public ECC_BAD_ARG_E (Some out') past 34 (Some fresh)
    = Ok (0, Some key') /\
    point (key_p key') = point (key_p key) /\
    key_dp key' = Some ecc25519_sets_0.
Proof.
  intros [Hp Hk] Hdp Hf Hout Hblank.
  set (out' := x22 :: key_f key :: point (key_p key) ++ skipn 34 out).
  pose proof (firstn_length_app (point (key_p key)) (skipn 34 out)) as Hpre.
  rewrite Hp in Hpre.
  change (point (key_p key) ++ skipn 34 out) with (skipn 2 out') in Hpre.
  assert (Hlen : (2 + 32 <= length out')%nat).
  { unfold out'. cbn [length]. rewrite length_app, Hp. lia. }
  exists out'. eexists. eexists.
  split; [apply export_public_value; assumption|].
  split.
  { change (firstn 34 out') with (x22 :: key_f key :: firstn 32 (skipn 2 out')).
    rewrite Hpre, Hf. reflexivity. }
  split; [apply init_value; assumption|].
  split.
  { apply import_public_accepted; [split; reflexivity|reflexivity|].
    unfold out'. rewrite <- Hf. reflexivity. }
  split; [|reflexivity].
  cbn [set_dp set_k set_p key_p point].
  rewrite map_fetch_inside by exact Hlen. exact Hpre.
Qed.

(** C9: on an accepted input, 34 bytes with the format tag,
    [ecc25519_import_public] copies [inLen] = 34 bytes from [in + 2] and not
    the 32 bytes of the point.  The copy takes [in[2..33]] and the two bytes
    that lie behind the end of the input; it fills [p.point] with the former
    and writes the latter behind the end of [p.point], into [k.point[0..1]];
    the other 30 private bytes stay and the call returns 0.  Checked against
    the extent of the input, or of the public array, the same copy is out of
    bounds; it fits exactly when two bytes are added on either side. *)
Theorem import_public_overrun (in_ : list byte) (past : nat -> byte) (key : ecc25519_key) :
  wf_key key -> key_dp key = Some ecc25519_sets_0 ->
  length in_ = 34%nat -> nth_error in_ 1 = Some montgomery_x_le ->
  ecc25519_import_public ECC_BAD_ARG_E (Some in_) past 34 (Some key)
  = Ok (0, Some (set_dp (set_k (set_p key (skipn 2 in_))
                               (past 0%nat :: past 1%nat :: skipn 2 (point (key_k key))))
                        (Some ecc25519_sets_0))) /\
  XMEMCPY (point (key_p key) ++ point (key_k key)) 0 in_ 2 34 = Fault OutOfBounds /\
  XMEMCPY (point (key_p key)) 0 (in_ ++ [past 0%nat; past 1%nat]) 2 34 = Fault OutOfBounds /\
  XMEMCPY (point (key_p key) ++ point (key_k key)) 0 (in_ ++ [past 0%nat; past 1%nat]) 2 34
  = Ok (skipn 2 in_ ++ past 0%nat :: past 1%nat :: skipn 2 (point (key_k key))).
Proof.
  intros [Hp Hk] Hdp Hin Htag.
  assert (Hdata : map (fetch in_ past) (seq 2 32) = skipn 2 in_).
  { rewrite map_fetch_inside by lia. apply firstn_all2. rewrite length_skipn. lia. }
  split; [|split; [|split]].
  - rewrite (import_public_accepted ECC_BAD_ARG_E in_ past key);
      [|split; assumption|assumption|apply fetch_inside; assumption].
    rewrite Hdata, !fetch_past by lia. rewrite Hin. reflexivity.
  - unfold XMEMCPY. rewrite Hin. reflexivity.
  - unfold XMEMCPY. rewrite Hp, length_app, Hin. reflexivity.
  - assert (HA : firstn 34 (skipn 2 (in_ ++ [past 0%nat; past 1%nat]))
                 = skipn 2 in_ ++ [past 0%nat; past 1%nat]).
    { rewrite skipn_app, Hin. change (skipn (2 - 34) [past 0%nat; past 1%nat])
        with [past 0%nat; past 1%nat].
      apply firstn_all2. rewrite length_app, length_skipn, Hin. cbn [length]. lia. }
    assert (HB : skipn 34 (point (key_p key) ++ point (key_k key))
                 = skipn 2 (point (key_k key))).
    { rewrite skipn_app, Hp. rewrite (skipn_all2 (point (key_p key))) by lia. reflexivity. }
    unfold XMEMCPY. rewrite !length_app, Hp, Hk, Hin.
    cbn [length Nat.add Nat.leb andb]. rewrite HA, HB, firstn_O, <- app_assoc. reflexivity.
Qed.

(** C10: [ecc25519_free] succeeds, clears the domain parameters and zeroes both
    arrays, and a second call on the result changes nothing. *)
Theorem free_idempotent (key : ecc25519_key) :
  wf_key key ->
  exists key',
    ecc25519_free (Some key) = Ok (Some key') /\
    key_dp key' = None /\
    point (key_p key') = repeat x00 32 /\
    point (key_k key') = repeat x00 32 /\
    ecc25519_free (Some key') = Ok (Some key') /\
    (r <- ecc25519_free (Some key) ;; ecc25519_free r) = ecc25519_free (Some key).
Proof.
  intros [Hp Hk].
  assert (Hset : forall l : list byte, XMEMSET l 0 x00 (length l) = Ok (repeat x00 (length l))).
  { intros l. unfold XMEMSET. cbn [Nat.add]. rewrite Nat.leb_refl, firstn_O.
    rewrite skipn_all2 by lia. rewrite app_nil_r. reflexivity. }
  assert (Hfree : forall k : ecc25519_key,
    ecc25519_free (Some k)
    = Ok (Some (set_k (set_p (set_dp k None) (repeat x00 (length (point (key_p k)))))
                  (repeat x00 (length (point (key_k k))))))).
  { intros k. unfold ecc25519_free. cbn [set_dp key_p key_k].
    rewrite Hset. cbn [bind set_p key_k]. rewrite Hset. reflexivity. }
  eexists. split; [apply Hfree|]. rewrite Hp, Hk.
  split; [reflexivity|]. split; [reflexivity|]. split; [reflexivity|].
  split.
  - rewrite Hfree. reflexivity.
  - rewrite !Hfree. cbn [bind]. rewrite Hfree. rewrite Hp, Hk. reflexivity.
Qed.

End KeyManagerClaims.

(** * Closed instances *)

Lemma clamp_spec_witness :
  length (repeat xff 32) = 32%nat /\
  exists e, clamp (repeat xff 32) = Ok e /\ length e = 32%nat /\
    Z.land (byte_to_Z (nth 0 e x00)) 7 = 0 /\
    Z.land (byte_to_Z (nth 31 e x00)) 128 = 0 /\
    Z.land (byte_to_Z (nth 31 e x00)) 64 = 64.
Proof.
  split; [reflexivity|].
  destruct (clamp_spec (-170) unit rng_ff (repeat xff 32) eq_refl)
    as (e & He & Hl & H0 & H7 & H6 & _).
  exists e. repeat split; assumption.
Defined.

Lemma byte_order_of_keys_and_secret_witness :
  (wf_key sample_key /\ rng_ff tt 32 = (0, repeat xff 32, tt) /\
   length (repeat xff 32) = 32%nat /\ (32 <= length (repeat x00 32))%nat /\ 32 <= 32 /\
   nth_error (point (key_p sample_key)) 0 = Some x01 /\ byte_to_Z x01 <= 127) /\
  (exists e key', clamp (repeat xff 32) = Ok e /\
     ecc25519_make_key (-170) unit rng_ff (Some tt) 32 (Some sample_key)
     = Ok (0, Some tt, Some key') /\
     point (key_k key') = rev e /\
     point (key_p key') = rev (curve25519_ladder e basepoint)) /\
  (exists e, clamp (rev (point (key_k sample_key))) = Ok e /\
     ecc25519_shared_secret (-170) (-173) (-132)
       (Some sample_key) (Some sample_key) (Some (repeat x00 32)) (Some 32)
     = Ok (0, Some (curve25519_ladder e (rev (point (key_p sample_key)))
                    ++ skipn 32 (repeat x00 32)), Some 32)).
Proof.
  assert (Hwf : wf_key sample_key) by (split; reflexivity).
  assert (Hb : byte_to_Z x01 <= 127) by (vm_compute; discriminate).
  split.
  - repeat split; try reflexivity; try assumption; try lia.
  - apply (byte_order_of_keys_and_secret (-170) (-173) (-132) unit rng_ff tt tt
             sample_key (repeat xff 32) sample_key sample_key (repeat x00 32) 32 x01);
      try reflexivity; try assumption; cbn [length repeat]; lia.
Defined.

Lemma make_key_rng_failure_witness :
  rng_broken tt 32 = (-1, repeat x00 32, tt) /\ -1 <> 0 /\
  ecc25519_make_key (-170) unit rng_broken (Some tt) 32 (Some sample_key)
  = Ok (-1, Some tt, Some sample_key).
Proof.
  split; [reflexivity|]. split; [discriminate|].
  apply (make_key_rng_failure (-170) unit rng_broken tt tt sample_key (-1) (repeat x00 32));
    [reflexivity|discriminate].
Defined.

Lemma buffer_too_small_witness :
  (key_dp sample_key = Some ecc25519_sets_0 /\ 16 < 32 /\
   nth_error (point (key_p sample_key)) 0 = Some x01 /\ byte_to_Z x01 <= 127) /\
  ecc25519_export_private_raw (-170) (-132) (Some sample_key) (Some (repeat x00 16)) (Some 16)
  = Ok (-132, Some (repeat x00 16), Some 32) /\
  ecc25519_shared_secret (-170) (-173) (-132)
    (Some sample_key) (Some sample_key) (Some (repeat x00 16)) (Some 16)
  = Ok (-132, Some (repeat x00 16), Some 16).
Proof.
  assert (Hb : byte_to_Z x01 <= 127) by (vm_compute; discriminate).
  split; [repeat split; try reflexivity; assumption|].
  apply (buffer_too_small (-170) (-173) (-132) sample_key sample_key sample_key
           (repeat x00 16) 16 x01); try reflexivity; assumption.
Defined.

(** C3 as stated fails: with [*outlen] = 16, [ecc25519_shared_secret] returns
    [BUFFER_E] and [*outlen] is still 16, not 32. *)
Lemma shared_secret_small_buffer_keeps_outlen :
  let r := ecc25519_shared_secret (-170) (-173) (-132)
             (Some sample_key) (Some sample_key) (Some (repeat x00 16)) (Some 16) in
  r = Ok (-132, Some (repeat x00 16), Some 16) /\
  r <> Ok (-132, Some (repeat x00 16), Some 32).
Proof. split; [reflexivity|discriminate]. Qed.

Lemma size_of_key_witness :
  key_dp sample_key = Some ecc25519_sets_0 /\
  ecc25519_size None = Ok 0 /\ ecc25519_size (Some sample_key) = Ok 32.
Proof.
  split; [reflexivity|].
  destruct (size_of_key sample_key ecc25519_sets_0 eq_refl) as (H0 & _ & H32).
  split; [exact H0|exact (H32 eq_refl)].
Defined.

(** C4 on the code: [ecc25519_free] leaves [sample_key] with a null [dp], and
    [ecc25519_size], which tests only [key] against NULL, dereferences it
    instead of returning 0. *)
Lemma size_of_wiped_key_faults :
  exists wiped,
    ecc25519_free (Some sample_key) = Ok (Some wiped) /\
    key_dp wiped = None /\
    ecc25519_size (Some wiped) = Fault NullDeref /\
    ecc25519_size (Some wiped) <> Ok 0.
Proof.
  eexists. split; [reflexivity|]. split; [reflexivity|].
  split; [reflexivity|discriminate].
Qed.

Lemma shared_secret_rejects_high_bit_witness :
  (nth_error (point (key_p high_bit_key)) 0 = Some x80 /\
   Z.testbit (byte_to_Z x80) 7 = true) /\
  ecc25519_shared_secret (-170) (-173) (-132)
    (Some sample_key) (Some high_bit_key) (Some (repeat xff 32)) (Some 32)
  = Ok (-170, Some (repeat xff 32), Some 32).
Proof.
  split; [split; reflexivity|].
  apply (shared_secret_rejects_high_bit (-170) (-173) (-132) sample_key high_bit_key
           (repeat xff 32) 32 x80); reflexivity.
Defined.

Lemma import_public_overrun_witness :
  (wf_key sample_key /\ key_dp sample_key = Some ecc25519_sets_0 /\
   length (x22 :: x41 :: repeat x07 32) = 34%nat /\
   nth_error (x22 :: x41 :: repeat x07 32) 1 = Some montgomery_x_le) /\
  ecc25519_import_public (-170) (Some (x22 :: x41 :: repeat x07 32)) past_ab 34
    (Some sample_key)
  = Ok (0, Some (set_dp (set_k (set_p sample_key (repeat x07 32))
                               (xaa :: xbb :: repeat x02 30))
                        (Some ecc25519_sets_0))).
Proof.
  assert (Hwf : wf_key sample_key) by (split; reflexivity).
  split; [repeat split; reflexivity|].
  exact (proj1 (import_public_overrun (-170) (x22 :: x41 :: repeat x07 32) past_ab
                  sample_key Hwf eq_refl eq_refl eq_refl)).
Defined.

Lemma import_of_export_witness :
  (wf_key sample_key /\ key_dp sample_key = Some ecc25519_sets_0 /\
   key_f sample_key = montgomery_x_le /\ (34 <= length (repeat x00 34))%nat /\
   wf_key blank_key) /\
  exists out' fresh key',
    ecc25519_export_public (-173) (Some sample_key) (Some (repeat x00 34)) (Some 0)
    = Ok (0, Some out', Some 34) /\
    firstn 34 out' = x22 :: montgomery_x_le :: point (key_p sample_key) /\
    ecc25519_init (-170) (Some blank_key) = Ok (0, Some fresh) /\
    ecc25519_import_public (-170) (Some out') past_ab 34 (Some fresh) = Ok (0, Some key') /\
    point (key_p key') = point (key_p sample_key) /\
    key_dp key' = Some ecc25519_sets_0.
Proof.
  assert (Hwf : wf_key sample_key) by (split; reflexivity).
  assert (Hblank : wf_key blank_key) by (split; reflexivity).
  assert (Hout : (34 <= length (repeat x00 34))%nat) by (cbn [length repeat]; lia).
  split; [repeat split; try reflexivity; exact Hout|].
  exact (import_of_export (-170) (-173) sample_key blank_key (repeat x00 34) 0 past_ab
           Hwf eq_refl eq_refl Hout Hblank).
Defined.

Lemma free_idempotent_witness :
  wf_key sample_key /\
  exists key',
    ecc25519_free (Some sample_key) = Ok (Some key') /\
    ecc25519_free (Some key') = Ok (Some key') /\
    key_dp key' = None /\
    point (key_p key') = repeat x00 32 /\ point (key_k key') = repeat x00 32.
Proof.
  assert (Hwf : wf_key sample_key) by (split; reflexivity).
  split; [exact Hwf|].
  destruct (free_idempotent sample_key Hwf) as (key' & H1 & Hdp & Hp & Hk & H2 & _).
  exists key'. repeat split; assumption.
Defined.

(** * Further properties of the key manager *)

Lemma XMEMCPY_ok (dst src : list byte) (doff soff n : nat) :
  (soff + n <= length src)%nat -> (doff + n <= length dst)%nat ->
  XMEMCPY dst doff src soff n
  = Ok (firstn doff dst ++ firstn n (skipn soff src) ++ skipn (doff + n) dst).
Proof.
  intros Hs Hd. unfold XMEMCPY.
  destruct (Nat.leb_spec (soff + n) (length src)); [|lia].
  destruct (Nat.leb_spec (doff + n) (length dst)); [|lia]. reflexivity.
Qed.

Lemma XMEMCPY_length (dst dst' src : list byte) (doff soff n : nat) :
  XMEMCPY dst doff src soff n = Ok dst' -> length dst' = length dst.
Proof.
  unfold XMEMCPY.
  destruct (Nat.leb_spec (soff + n) (length src)) as [Hs|]; [|discriminate].
  destruct (Nat.leb_spec (doff + n) (length dst)) as [Hd|]; [|discriminate].
  cbn [andb]. intros [= <-].
  rewrite !length_app, length_firstn, length_firstn, !length_skipn. lia.
Qed.

Lemma XMEMSET_ok (dst : list byte) (doff : nat) (c : byte) (n : nat) :
  (doff + n <= length dst)%nat ->
  XMEMSET dst doff c n = Ok (firstn doff dst ++ repeat c n ++ skipn (doff + n) dst).
Proof.
  intros H. unfold XMEMSET. destruct (Nat.leb_spec (doff + n) (length dst)); [reflexivity|lia].
Qed.

Lemma XMEMSET_length (dst dst' : list byte) (doff : nat) (c : byte) (n : nat) :
  XMEMSET dst doff c n = Ok dst' -> length dst' = length dst.
Proof.
  unfold XMEMSET. destruct (Nat.leb_spec (doff + n) (length dst)) as [Hd|]; [|discriminate].
  intros [= <-]. rewrite !length_app, length_firstn, repeat_length, length_skipn. lia.
Qed.

Lemma for_loop_invariant {S : Type} (P : S -> Prop) (body : nat -> S -> result S) :
  (forall i s s', body i s = Ok s' -> P s -> P s') ->
  forall n i s s', for_loop n i body s = Ok s' -> P s -> P s'.
Proof.
  intros Hbody. induction n as [|n IH]; intros i s s' H Hs; cbn [for_loop] in H.
  - congruence.
  - destruct (body i s) as [s1|] eqn:E; cbn [bind] in H; [|discriminate].
    eapply IH; [eassumption|]. eapply Hbody; eassumption.
Qed.

Ltac bind_inv_tac H x E :=
  match type of H with
  | bind ?m _ = Ok _ => destruct m as [x|] eqn:E; cbn [bind] in H; [|discriminate H]
  end.

Tactic Notation "bind_inv" hyp(H) "as" simple_intropattern(x) ident(E) :=
  bind_inv_tac H x E.

Tactic Notation "bind_inv" hyp(H) :=
  let E := fresh "E" in bind_inv_tac H ipattern:(?) E.

Lemma load_store_length (src d d' : list byte) (i j : nat) :
  (v <- load src i ;; store d j v) = Ok d' -> length d' = length d.
Proof. intros H. bind_inv H as v E. eapply length_store; eassumption. Qed.

Lemma clamp_length (e e' : list byte) : clamp e = Ok e' -> length e' = length e.
Proof.
  unfold clamp. intros H.
  bind_inv H as b0 E0. bind_inv H as e1 E1. bind_inv H as b31 E2.
  bind_inv H as e2 E3. bind_inv H as b31' E4.
  repeat match goal with
         | Hs : store _ _ _ = Ok _ |- _ => apply length_store in Hs
         end.
  congruence.
Qed.

Lemma clamp_byte31_top2 (b : byte) :
  Z.land (byte_to_Z (byte_or (byte_and b 127) 64)) 192 = 64.
Proof. destruct b; reflexivity. Qed.

Lemma clamp_byte31_low6 (b : byte) :
  byte_or (byte_and b 127) 64 = byte_of_Z (Z.lor (Z.land (byte_to_Z b) 63) 64).
Proof. destruct b; reflexivity. Qed.

(** Bytes that differ only in the bits the clamp overwrites are clamped alike. *)
Lemma clamp_agree (n n' e : list byte) :
  length n = 32%nat -> length n' = 32%nat ->
  Z.land (byte_to_Z (nth 0 n x00)) 248 = Z.land (byte_to_Z (nth 0 n' x00)) 248 ->
  Z.land (byte_to_Z (nth 31 n x00)) 63 = Z.land (byte_to_Z (nth 31 n' x00)) 63 ->
  (forall i, (0 < i < 31)%nat -> nth i n x00 = nth i n' x00) ->
  clamp n = Ok e -> clamp n' = Ok e.
Proof.
  intros Hn Hn' H0 H31 Hmid He.
  destruct (clamp_ok n Hn) as (e1 & He1 & Hl1 & A0 & A31 & Ai).
  assert (e1 = e) by congruence. subst e1.
  destruct (clamp_ok n' Hn') as (e2 & He2 & Hl2 & B0 & B31 & Bi).
  rewrite He2. f_equal.
  apply (nth_ext _ _ x00 x00); [lia|].
  intros i Hi.
  destruct (Nat.eq_dec i 0) as [->|Hi0].
  - rewrite A0, B0. unfold byte_and. rewrite H0. reflexivity.
  - destruct (Nat.eq_dec i 31) as [->|Hi31].
    + rewrite A31, B31, !clamp_byte31_low6, H31. reflexivity.
    + rewrite Ai, Bi by assumption. symmetry. apply Hmid. lia.
Qed.

Lemma nth_le_encode (n i : nat) (z : Z) :
  (i < n)%nat -> nth i (le_encode n z) x00 = byte_of_Z (z / 256 ^ Z.of_nat i).
Proof.
  revert i z. induction n as [|n IH]; intros i z Hi; [lia|].
  cbn [le_encode]. destruct i as [|i].
  - cbn [nth]. change (256 ^ Z.of_nat 0) with 1. rewrite Z.div_1_r. reflexivity.
  - cbn [nth]. rewrite IH by lia. f_equal.
    rewrite Nat2Z.inj_succ, Z.pow_succ_r by lia.
    rewrite Z.div_div by lia. reflexivity.
Qed.

(** "output's top bit is always 0": the last byte of [fe_tobytes] is below 128. *)
Lemma fe_tobytes_top (h : fe) : byte_to_Z (nth 31 (fe_tobytes h) x00) <= 127.
Proof.
  unfold fe_tobytes. rewrite nth_le_encode by lia. rewrite byte_to_of_Z.
  pose proof (Zmod.unsigned_pos_bound h ltac:(reflexivity)) as Hr.
  assert (Hq : 0 <= Zmod.to_Z h / 256 ^ Z.of_nat 31 < 128).
  { split; [apply Z.div_pos; [lia|reflexivity]|].
    apply Z.div_lt_upper_bound; [reflexivity|].
    eapply Z.lt_trans; [apply Hr|]. reflexivity. }
  rewrite Z.mod_small by lia. lia.
Qed.

Lemma curve25519_ladder_tobytes (e p : list byte) :
  exists h : fe, curve25519_ladder e p = fe_tobytes h.
Proof.
  unfold curve25519_ladder.
  destruct (ladder_loop _ _ _ _) as [[[[x2 z2] x3] z3] swap].
  destruct (fe_cswap x2 x3 swap), (fe_cswap z2 z3 swap).
  eexists. reflexivity.
Qed.

Section KeyManagerMore.

Variables ECC_BAD_ARG_E BAD_FUNC_ARG BUFFER_E : Z.
Variable RNG : Type.
Variable RNG_GenerateBlock : RNG -> Z -> Z * list byte * RNG.

(** X1: with a null key, a null generator or a key size other than 32,
    [ecc25519_make_key] returns [ECC_BAD_ARG_E]; the key is untouched and the
    generator has not been asked for bytes. *)
Theorem make_key_bad_args (rng : option RNG) (keysize : Z) (key : option ecc25519_key) :
  rng = None \/ key = None \/ keysize <> 32 ->
  ecc25519_make_key ECC_BAD_ARG_E RNG RNG_GenerateBlock rng keysize key
  = Ok (ECC_BAD_ARG_E, rng, key).
Proof.
  intros H. unfold ecc25519_make_key.
  destruct key as [key0|]; [|reflexivity].
  destruct rng as [rng0|]; [|reflexivity].
  destruct H as [H|[H|H]]; try discriminate.
  unfold ECC25519_KEYSIZE. destruct (Z.eqb_spec keysize 32); [contradiction|reflexivity].
Qed.

(** X2: if any of the four pointers is null, [ecc25519_shared_secret] returns
    [BAD_FUNC_ARG] and writes neither [out] nor [*outlen]. *)
Theorem shared_secret_null_args (priv pub : option ecc25519_key) (out : option (list byte))
  (outlen : option Z) :
  priv = None \/ pub = None \/ out = None \/ outlen = None ->
  ecc25519_shared_secret ECC_BAD_ARG_E BAD_FUNC_ARG BUFFER_E priv pub out outlen
  = Ok (BAD_FUNC_ARG, out, outlen).
Proof.
  intros H. unfold ecc25519_shared_secret.
  destruct priv; [|reflexivity]. destruct pub; [|reflexivity].
  destruct out; [|reflexivity]. destruct outlen; [|reflexivity].
  destruct H as [H|[H|[H|H]]]; discriminate.
Qed.

(** X3: for a key with the curve25519 parameters and a buffer of at least 34
    bytes, [ecc25519_export_public] returns 0, sets [*outLen] to 34 and writes
    the length byte 34, the format byte and the 32 stored bytes of the public
    point; the rest of the buffer and the value [*outLen] had are of no
    consequence. *)
Theorem export_public_ok (key : ecc25519_key) (out : list byte) (outLen : Z) :
  key_dp key = Some ecc25519_sets_0 -> length (point (key_p key)) = 32%nat ->
  (34 <= length out)%nat ->
  ecc25519_export_public BAD_FUNC_ARG (Some key) (Some out) (Some outLen)
  = Ok (0, Some (x22 :: key_f key :: point (key_p key) ++ skipn 34 out), Some 34).
Proof.
  intros Hdp Hp Hout. unfold ecc25519_export_public, ecc25519_size.
  rewrite Hdp. cbn [deref bind].
  change (to_word32 (size ecc25519_sets_0)) with 32.
  change (Z.to_nat 2) with 2%nat. change (Z.to_nat 32) with 32%nat.
  rewrite XMEMCPY_ok by lia. cbn [bind].
  change (to_word32 (32 + 2)) with 34. change (byte_of_Z 34) with x22.
  rewrite skipn_O, (firstn_all2 (point (key_p key))) by lia. cbn [Nat.add].
  destruct out as [|o0 [|o1 out']]; cbn [length] in Hout; try lia.
  unfold store. cbn. reflexivity.
Qed.

(** X4: [ecc25519_export_public] with a null key or a null buffer returns
    [BAD_FUNC_ARG] and writes nothing. *)
Theorem export_public_null_args (key : option ecc25519_key) (out : option (list byte))
  (outLen : option Z) :
  key = None \/ out = None ->
  ecc25519_export_public BAD_FUNC_ARG key out outLen = Ok (BAD_FUNC_ARG, out, outLen).
Proof.
  intros H. unfold ecc25519_export_public.
  destruct key; [|reflexivity]. destruct out; [|reflexivity].
  destruct H; discriminate.
Qed.

(** X5: [ecc25519_export_public] checks neither [outLen] against NULL nor
    the room in [out]: with a null [outLen] it dereferences it after the copy,
    and with a buffer of fewer than 34 bytes the copy of the point runs past
    the end of the buffer, whatever [*outLen] says. *)
Theorem export_public_unchecked (key : ecc25519_key) (out : list byte) (outLen : option Z) :
  key_dp key = Some ecc25519_sets_0 -> length (point (key_p key)) = 32%nat ->
  ((34 <= length out)%nat -> outLen = None ->
   ecc25519_export_public BAD_FUNC_ARG (Some key) (Some out) outLen = Fault NullDeref) /\
  ((length out < 34)%nat ->
   ecc25519_export_public BAD_FUNC_ARG (Some key) (Some out) outLen = Fault OutOfBounds).
Proof.
  intros Hdp Hp. unfold ecc25519_export_public, ecc25519_size.
  rewrite Hdp. cbn [deref bind].
  change (to_word32 (size ecc25519_sets_0)) with 32.
  change (Z.to_nat 2) with 2%nat. change (Z.to_nat 32) with 32%nat.
  split.
  - intros Hout ->. rewrite XMEMCPY_ok by lia. reflexivity.
  - intros Hout. unfold XMEMCPY.
    destruct (Nat.leb_spec (2 + 32) (length out)); [lia|].
    rewrite andb_false_r. reflexivity.
Qed.

(** X6: on a well-formed key with the curve25519 parameters,
    [ecc25519_import_public] refuses a length other than 34, and an input
    whose byte 1 is not [montgomery_x_le], with [ECC_BAD_ARG_E] and leaves the
    key as it was; a null input of length 34 is dereferenced; every other
    input is accepted: the call returns 0, the public point is [in[2..33]],
    [dp] is the curve25519 entry, and [type], [idx], [f] and the private bytes
    from index 2 on are as before. *)
Theorem import_public_spec (in_ : option (list byte)) (past : nat -> byte) (inLen : Z)
  (key : ecc25519_key) :
  wf_key key -> key_dp key = Some ecc25519_sets_0 ->
  (inLen <> 34 ->
   ecc25519_import_public ECC_BAD_ARG_E in_ past inLen (Some key)
   = Ok (ECC_BAD_ARG_E, Some key)) /\
  (forall in0, in_ = Some in0 -> fetch in0 past 1 <> montgomery_x_le ->
   ecc25519_import_public ECC_BAD_ARG_E in_ past inLen (Some key)
   = Ok (ECC_BAD_ARG_E, Some key)) /\
  (in_ = None -> ecc25519_import_public ECC_BAD_ARG_E in_ past 34 (Some key)
                 = Fault NullDeref) /\
  (forall in0, in_ = Some in0 -> (34 <= length in0)%nat ->
   nth_error in0 1 = Some montgomery_x_le ->
   exists key',
     ecc25519_import_public ECC_BAD_ARG_E in_ past 34 (Some key) = Ok (0, Some key') /\
     point (key_p key') = firstn 32 (skipn 2 in0) /\
     key_dp key' = Some ecc25519_sets_0 /\
     key_type key' = key_type key /\ key_idx key' = key_idx key /\
     key_f key' = key_f key /\
     skipn 2 (point (key_k key')) = skipn 2 (point (key_k key))).
Proof.
  intros Hwf Hdp. split; [|split; [|split]].
  - intros H. apply import_public_refused; [assumption|left; assumption].
  - intros in0 -> Htag. apply import_public_refused; [assumption|].
    right. exists in0. split; [reflexivity|assumption].
  - intros ->. unfold ecc25519_import_public, ecc25519_size.
    rewrite Hdp. reflexivity.
  - intros in0 -> Hlen Htag. eexists.
    split; [apply import_public_accepted;
            [assumption|assumption|apply fetch_inside; assumption]|].
    cbn [set_dp set_k set_p key_p key_k key_dp key_type key_idx key_f point skipn].
    split; [apply map_fetch_inside; lia|]. repeat (split; [reflexivity|]). reflexivity.
Qed.

(** X7: for a key with the curve25519 parameters, [*outLen] at least 32 and a
    buffer of at least 32 bytes, [ecc25519_export_private_raw] returns 0, sets
    [*outLen] to 32 and writes the 32 stored bytes of the private key, in the
    stored order, to the start of [out]. *)
Theorem export_private_raw_ok (key : ecc25519_key) (out : list byte) (outLen : Z) :
  key_dp key = Some ecc25519_sets_0 -> length (point (key_k key)) = 32%nat ->
  32 <= outLen -> (32 <= length out)%nat ->
  ecc25519_export_private_raw ECC_BAD_ARG_E BUFFER_E (Some key) (Some out) (Some outLen)
  = Ok (0, Some (point (key_k key) ++ skipn 32 out), Some 32).
Proof.
  intros Hdp Hk Hlen Hout. unfold ecc25519_export_private_raw, ecc25519_size.
  rewrite Hdp. cbn [deref bind].
  change (to_word32 (size ecc25519_sets_0)) with 32.
  destruct (Z.ltb_spec outLen 32); [lia|].
  change (Z.to_nat 32) with 32%nat.
  rewrite XMEMSET_ok by lia. cbn [bind].
  rewrite XMEMCPY_ok by (rewrite ?length_app, ?repeat_length, ?length_skipn; cbn [length firstn Nat.add]; lia).
  rewrite !firstn_O, skipn_O. cbn [app Nat.add].
  rewrite firstn_all2 by lia.
  rewrite skipn_app, repeat_length, Nat.sub_diag, skipn_O.
  rewrite skipn_all2 by (rewrite repeat_length; lia). reflexivity.
Qed.

Lemma import_private_raw_32 (priv0 pub0 : list byte) (key : ecc25519_key) :
  wf_key key -> key_dp key = Some ecc25519_sets_0 ->
  (32 <= length priv0)%nat -> (32 <= length pub0)%nat ->
  ecc25519_import_private_raw ECC_BAD_ARG_E (Some priv0) 32 (Some pub0) 32 (Some key)
  = Ok (0, Some (set_p (set_k key (firstn 32 priv0)) (firstn 32 pub0))).
Proof.
  intros [Hp Hk] Hdp Hpriv Hpub. unfold ecc25519_import_private_raw, ecc25519_size.
  rewrite Hdp. cbn [deref bind].
  change (to_word32 (size ecc25519_sets_0)) with 32.
  cbn [Z.eqb Pos.eqb negb orb]. change (Z.to_nat 32) with 32%nat.
  unfold XMEMCPY_ptr. cbn [option_map deref bind].
  rewrite !XMEMCPY_ok by lia. cbn [bind].
  rewrite !firstn_O, !skipn_O. cbn [app Nat.add].
  rewrite !skipn_all2 by lia. rewrite !app_nil_r. reflexivity.
Qed.

(** X8: [ecc25519_import_private_raw] accepts exactly the sizes 32 and 32 on
    a key with the curve25519 parameters; it then stores the first 32 bytes
    of [priv] and of [pub] as they are (no clamping, no check of the
    public point) and leaves the other fields alone.  With any other size it
    returns [ECC_BAD_ARG_E] without reading the buffers or changing the key. *)
Theorem import_private_raw_spec (priv pub : option (list byte)) (privSz pubSz : Z)
  (key : ecc25519_key) :
  wf_key key -> key_dp key = Some ecc25519_sets_0 ->
  (privSz <> 32 \/ pubSz <> 32 ->
   ecc25519_import_private_raw ECC_BAD_ARG_E priv privSz pub pubSz (Some key)
   = Ok (ECC_BAD_ARG_E, Some key)) /\
  (forall priv0 pub0, priv = Some priv0 -> pub = Some pub0 ->
   (32 <= length priv0)%nat -> (32 <= length pub0)%nat ->
   ecc25519_import_private_raw ECC_BAD_ARG_E priv 32 pub 32 (Some key)
   = Ok (0, Some (set_p (set_k key (firstn 32 priv0)) (firstn 32 pub0)))).
Proof.
  intros [Hp Hk] Hdp. split.
  - intros H. unfold ecc25519_import_private_raw, ecc25519_size.
    rewrite Hdp. cbn [deref bind].
    change (to_word32 (size ecc25519_sets_0)) with 32.
    destruct (Z.eqb_spec privSz 32), (Z.eqb_spec pubSz 32); cbn [negb orb];
      try reflexivity. lia.
  - intros priv0 pub0 -> -> Hpriv Hpub.
    apply import_private_raw_32; [split| | |]; assumption.
Qed.

(** X9: what [ecc25519_export_private_raw] writes can be read back by
    [ecc25519_import_private_raw]: the importing key then holds the private
    bytes of the exporting key. *)
Theorem private_raw_round_trip (key key2 : ecc25519_key) (out pub : list byte) (outLen : Z) :
  wf_key key -> key_dp key = Some ecc25519_sets_0 ->
  wf_key key2 -> key_dp key2 = Some ecc25519_sets_0 ->
  32 <= outLen -> (32 <= length out)%nat -> (32 <= length pub)%nat ->
  exists out' key2',
    ecc25519_export_private_raw ECC_BAD_ARG_E BUFFER_E (Some key) (Some out) (Some outLen)
    = Ok (0, Some out', Some 32) /\
    ecc25519_import_private_raw ECC_BAD_ARG_E (Some out') 32 (Some pub) 32 (Some key2)
    = Ok (0, Some key2') /\
    point (key_k key2') = point (key_k key) /\
    point (key_p key2') = firstn 32 pub.
Proof.
  intros [Hp Hk] Hdp [Hp2 Hk2] Hdp2 Hlen Hout Hpub.
  exists (point (key_k key) ++ skipn 32 out).
  exists (set_p (set_k key2 (point (key_k key))) (firstn 32 pub)).
  assert (Hexp : ecc25519_export_private_raw ECC_BAD_ARG_E BUFFER_E
                   (Some key) (Some out) (Some outLen)
                 = Ok (0, Some (point (key_k key) ++ skipn 32 out), Some 32)).
  { unfold ecc25519_export_private_raw, ecc25519_size.
    rewrite Hdp. cbn [deref bind].
    change (to_word32 (size ecc25519_sets_0)) with 32.
    destruct (Z.ltb_spec outLen 32); [lia|].
    change (Z.to_nat 32) with 32%nat.
    rewrite XMEMSET_ok by lia. cbn [bind].
    rewrite XMEMCPY_ok
      by (rewrite ?length_app, ?repeat_length, ?length_skipn; cbn [length firstn Nat.add]; lia).
    rewrite !firstn_O, skipn_O. cbn [app Nat.add].
    rewrite firstn_all2 by lia.
    rewrite skipn_app, repeat_length, Nat.sub_diag, skipn_O.
    rewrite skipn_all2 by (rewrite repeat_length; lia). reflexivity. }
  split; [exact Hexp|]. split; [|split; reflexivity].
  rewrite import_private_raw_32; [|split; assumption|assumption| |assumption].
  - rewrite firstn_app, Hk, Nat.sub_diag, firstn_O, app_nil_r.
    rewrite (firstn_all2 (point (key_k key))) by lia. reflexivity.
  - rewrite length_app. lia.
Qed.

(** X10: [ecc25519_init] refuses a null key; on a key it sets the format to
    [montgomery_x_le] and the parameters to the curve25519 entry and zeroes
    both arrays, so that [ecc25519_size] is 32 afterwards; a key wiped by
    [ecc25519_free] is brought to the same state. *)
Theorem init_spec (key : ecc25519_key) :
  wf_key key ->
  ecc25519_init ECC_BAD_ARG_E None = Ok (ECC_BAD_ARG_E, None) /\
  exists key',
    ecc25519_init ECC_BAD_ARG_E (Some key) = Ok (0, Some key') /\
    key_f key' = montgomery_x_le /\ key_dp key' = Some ecc25519_sets_0 /\
    point (key_p key') = repeat x00 32 /\ point (key_k key') = repeat x00 32 /\
    key_type key' = key_type key /\ key_idx key' = key_idx key /\
    ecc25519_size (Some key') = Ok 32 /\
    (r <- ecc25519_free (Some key) ;; ecc25519_init ECC_BAD_ARG_E r) = Ok (0, Some key').
Proof.
  intros [Hp Hk]. split; [reflexivity|].
  assert (Hinit : forall k : ecc25519_key,
    length (point (key_p k)) = 32%nat -> length (point (key_k k)) = 32%nat ->
    ecc25519_init ECC_BAD_ARG_E (Some k)
    = Ok (0, Some {| key_type := key_type k; key_idx := key_idx k;
                     key_dp := Some ecc25519_sets_0; key_f := montgomery_x_le;
                     key_p := {| point := repeat x00 32 |};
                     key_k := {| point := repeat x00 32 |} |})).
  { intros k Hp' Hk'. unfold ecc25519_init.
    cbn [set_dp set_f key_dp key_k key_p deref bind].
    change (Z.to_nat (to_word32 (size ecc25519_sets_0))) with 32%nat.
    rewrite XMEMSET_ok by lia. cbn [bind].
    rewrite XMEMSET_ok by (cbn [set_k key_p]; lia). cbn [bind].
    rewrite !firstn_O. cbn [app Nat.add set_k key_p].
    rewrite !skipn_all2 by lia. rewrite !app_nil_r. reflexivity. }
  eexists. split; [apply Hinit; assumption|].
  repeat (split; [reflexivity|]).
  assert (Hset : forall l : list byte, XMEMSET l 0 x00 (length l) = Ok (repeat x00 (length l))).
  { intros l. rewrite XMEMSET_ok by lia. rewrite firstn_O, skipn_all2 by lia.
    rewrite app_nil_r. reflexivity. }
  unfold ecc25519_free. cbn [set_dp key_p key_k].
  rewrite Hset. cbn [bind set_p key_k]. rewrite Hset. cbn [bind].
  rewrite Hinit; [reflexivity| |]; cbn [set_k set_p key_p key_k point];
    rewrite repeat_length; assumption.
Qed.

(** X11: the two arrays of a key stay 32 bytes long: whenever
    [ecc25519_init], [ecc25519_free], [ecc25519_make_key],
    [ecc25519_import_public] or [ecc25519_import_private_raw] returns on a
    well-formed key, the key it leaves is well-formed. *)
Theorem wf_key_preserved (key key' : ecc25519_key) :
  wf_key key ->
  (forall e, ecc25519_init ECC_BAD_ARG_E (Some key) = Ok (e, Some key') -> wf_key key') /\
  (ecc25519_free (Some key) = Ok (Some key') -> wf_key key') /\
  (forall rng keysize e rng',
     ecc25519_make_key ECC_BAD_ARG_E RNG RNG_GenerateBlock rng keysize (Some key)
     = Ok (e, rng', Some key') -> wf_key key') /\
  (forall in_ past inLen e,
     ecc25519_import_public ECC_BAD_ARG_E in_ past inLen (Some key) = Ok (e, Some key') ->
     wf_key key') /\
  (forall priv privSz pub pubSz e,
     ecc25519_import_private_raw ECC_BAD_ARG_E priv privSz pub pubSz (Some key)
     = Ok (e, Some key') -> wf_key key').
Proof.
  intros [Hp Hk]. split; [|split; [|split; [|split]]].
  - intros e H. unfold ecc25519_init in H. cbn [set_dp set_f key_dp deref bind] in H.
    bind_inv H as kp E1. bind_inv H as pp E2. injection H as <- <-.
    apply XMEMSET_length in E1, E2.
    cbn [key_k key_p set_k set_p set_dp set_f point] in *.
    split; cbn [set_p set_k key_p key_k point]; congruence.
  - intros H. unfold ecc25519_free in H.
    bind_inv H as pp E1. bind_inv H as kp E2. injection H as <-.
    apply XMEMSET_length in E1, E2.
    cbn [key_k key_p set_k set_p set_dp set_f point] in *.
    split; cbn [set_p set_k key_p key_k point]; congruence.
  - intros rng keysize e rng' H. unfold ecc25519_make_key in H.
    destruct rng as [rng0|]; [|injection H as <- <- <-; split; assumption].
    destruct (negb (keysize =? ECC25519_KEYSIZE));
      [injection H as <- <- <-; split; assumption|].
    destruct (RNG_GenerateBlock rng0 keysize) as [[err n] rng1].
    destruct (negb (err =? 0)); [injection H as <- <- <-; split; assumption|].
    bind_inv H as kp1 E1. bind_inv H as kp2 E2. bind_inv H as [err' p'] E3.
    bind_inv H as n1 E4. bind_inv H as [pp kp] E5. bind_inv H as n2 E6.
    injection H as <- <- <-.
    assert (Hl1 : length kp1 = 32%nat).
    { eapply (for_loop_invariant (fun l : list byte => length l = 32%nat));
        [|exact E1|exact Hk].
      intros i s s' Hb Hs. rewrite <- Hs. exact (load_store_length _ _ _ _ _ Hb). }
    assert (Hl2 : length kp2 = 32%nat) by (rewrite <- Hl1; eapply clamp_length; eassumption).
    assert (Hpair : length pp = 32%nat /\ length kp = 32%nat).
    { change (length (fst (pp, kp)) = 32%nat /\ length (snd (pp, kp)) = 32%nat).
      eapply (for_loop_invariant (fun pk : list byte * list byte =>
                                    length (fst pk) = 32%nat /\ length (snd pk) = 32%nat));
        [|exact E5|split; assumption].
      intros i [a b] [a' b'] Hb [Ha Hb']. cbn [fst snd] in *.
      bind_inv Hb as v1 F1. bind_inv Hb as a1 F2. bind_inv Hb as v2 F3. bind_inv Hb as b1 F4.
      injection Hb as <- <-.
      apply length_store in F2, F4. split; congruence. }
    split; cbn [set_p set_k key_p key_k point]; tauto.
  - intros in_ past inLen e H. unfold ecc25519_import_public in H.
    bind_inv H as keySz E1.
    destruct (negb (inLen =? _)); [injection H as <- <-; split; assumption|].
    bind_inv H as in0 E2.
    destruct (negb (byte_to_Z _ =? _)); [injection H as <- <-; split; assumption|].
    cbn [deref bind] in H. bind_inv H as [pp kp] E4. injection H as <- <-.
    apply XMEMCPY_adjacent_length in E4. destruct E4 as [E4 E5].
    split; cbn [set_dp set_p set_k key_p key_k point]; congruence.
  - intros priv privSz pub pubSz e H. unfold ecc25519_import_private_raw in H.
    bind_inv H as keySz E1.
    destruct (negb (privSz =? _) || negb (pubSz =? _));
      [injection H as <- <-; split; assumption|].
    cbn [option_map] in H.
    bind_inv H as kp E3. bind_inv H as pp E5.
    assert (Hptr : forall (d : list byte) (src r : option (list byte)) (n : nat),
              XMEMCPY_ptr (Some d) src n = Ok r ->
              exists d', r = Some d' /\ length d' = length d).
    { intros d src r n Hc. unfold XMEMCPY_ptr in Hc. destruct n as [|n].
      - injection Hc as <-. exists d. split; reflexivity.
      - cbn [deref bind] in Hc. bind_inv Hc as s0 F1. bind_inv Hc as d1 F2.
        injection Hc as <-. exists d1. split; [reflexivity|].
        eapply XMEMCPY_length; eassumption. }
    apply Hptr in E3, E5.
    destruct E3 as (kp' & -> & E3), E5 as (pp' & -> & E5).
    injection H as <- <-.
    split; cbn [set_dp set_p set_k key_p key_k point]; congruence.
Qed.

(** X12: on a key whose domain parameters have been cleared (as
    [ecc25519_free] leaves it), every call that reaches [ecc25519_size]
    dereferences the null [dp]: the two import functions with any arguments,
    [ecc25519_export_public] with any non-null [out], and
    [ecc25519_export_private_raw] with any non-null [out] and [outLen].  With
    a null [out] (or [outLen]) the export functions return their argument
    error before the size is asked for. *)
Theorem wiped_key_faults (key : ecc25519_key) (out : option (list byte)) (outLen : option Z)
  (in_ priv pub : option (list byte)) (past : nat -> byte) (inLen privSz pubSz : Z) :
  key_dp key = None ->
  ecc25519_export_public BAD_FUNC_ARG (Some key) out outLen
  = match out with
    | Some _ => Fault NullDeref
    | None => Ok (BAD_FUNC_ARG, out, outLen)
    end /\
  ecc25519_export_private_raw ECC_BAD_ARG_E BUFFER_E (Some key) out outLen
  = match out, outLen with
    | Some _, Some _ => Fault NullDeref
    | _, _ => Ok (ECC_BAD_ARG_E, out, outLen)
    end /\
  ecc25519_import_public ECC_BAD_ARG_E in_ past inLen (Some key) = Fault NullDeref /\
  ecc25519_import_private_raw ECC_BAD_ARG_E priv privSz pub pubSz (Some key)
  = Fault NullDeref.
Proof.
  intros Hdp.
  unfold ecc25519_export_public, ecc25519_export_private_raw, ecc25519_import_public,
    ecc25519_import_private_raw, ecc25519_size.
  rewrite Hdp. cbn [deref bind].
  split; [destruct out; reflexivity|].
  split; [destruct out, outLen; reflexivity|].
  split; reflexivity.
Qed.

(** X13: the import functions do not test [key] against NULL.  With a null
    key [ecc25519_size] yields 0, so [ecc25519_import_public] refuses every
    length but 2 and [ecc25519_import_private_raw] every pair of sizes but
    (0, 0).  With length 2 and the format byte, [ecc25519_import_public]
    copies two bytes through the null key; with sizes (0, 0)
    [ecc25519_import_private_raw] copies nothing and returns 0, whatever
    [priv] and [pub] are. *)
Theorem import_into_null_key (in0 : list byte) (past : nat -> byte)
  (in_ priv pub : option (list byte)) (inLen privSz pubSz : Z) :
  nth_error in0 1 = Some montgomery_x_le ->
  (inLen <> 2 ->
   ecc25519_import_public ECC_BAD_ARG_E in_ past inLen None = Ok (ECC_BAD_ARG_E, None)) /\
  ecc25519_import_public ECC_BAD_ARG_E (Some in0) past 2 None = Fault NullDeref /\
  (privSz <> 0 \/ pubSz <> 0 ->
   ecc25519_import_private_raw ECC_BAD_ARG_E priv privSz pub pubSz None
   = Ok (ECC_BAD_ARG_E, None)) /\
  ecc25519_import_private_raw ECC_BAD_ARG_E priv 0 pub 0 None = Ok (0, None).
Proof.
  intros Htag.
  unfold ecc25519_import_public, ecc25519_import_private_raw, ecc25519_size.
  cbn [bind]. change (to_word32 0) with 0. change (to_word32 (0 + 2)) with 2.
  split; [|split; [|split]].
  - intros H. destruct (Z.eqb_spec inLen 2); [contradiction|reflexivity].
  - cbn [Z.eqb Pos.eqb negb deref bind].
    rewrite (fetch_inside in0 past 1 montgomery_x_le Htag), Z.eqb_refl. reflexivity.
  - intros H. destruct (Z.eqb_spec privSz 0), (Z.eqb_spec pubSz 0); cbn [negb orb];
      try reflexivity. lia.
  - reflexivity.
Qed.

(** X14: the private key that [ecc25519_make_key] stores is the clamped
    scalar back to front, so what [ecc25519_export_private_raw] then writes
    has the clamped bits at the other end: the low three bits of the last byte
    are clear and the top two bits of the first byte are 01.  The key's
    format and parameters are as before the generation. *)
Theorem generated_private_key_export (rng rng' : RNG) (key : ecc25519_key) (n out : list byte)
  (len : Z) :
  wf_key key -> key_dp key = Some ecc25519_sets_0 ->
  RNG_GenerateBlock rng 32 = (0, n, rng') -> length n = 32%nat ->
  32 <= len -> (32 <= length out)%nat ->
  exists key' out',
    ecc25519_make_key ECC_BAD_ARG_E RNG RNG_GenerateBlock (Some rng) 32 (Some key)
    = Ok (0, Some rng', Some key') /\
    key_dp key' = key_dp key /\ key_f key' = key_f key /\
    ecc25519_export_private_raw ECC_BAD_ARG_E BUFFER_E (Some key') (Some out) (Some len)
    = Ok (0, Some out', Some 32) /\
    Z.land (byte_to_Z (nth 31 out' x00)) 7 = 0 /\
    Z.land (byte_to_Z (nth 0 out' x00)) 192 = 64.
Proof.
  intros Hwf Hdp Hrng Hn Hlen Hout.
  destruct (make_key_ok ECC_BAD_ARG_E RNG RNG_GenerateBlock rng rng' key n Hwf Hrng Hn)
    as (e & He & Hle & Hmk).
  destruct (clamp_ok n Hn) as (e1 & He1 & _ & A0 & A31 & _).
  assert (e1 = e) by congruence. subst e1.
  exists (set_k (set_p key (rev (curve25519_ladder e basepoint))) (rev e)).
  exists (rev e ++ skipn 32 out).
  split; [exact Hmk|]. split; [reflexivity|]. split; [reflexivity|].
  assert (Hrl : length (rev e) = 32%nat) by (rewrite length_rev; assumption).
  split; [|split].
  - unfold ecc25519_export_private_raw, ecc25519_size.
    cbn [set_k set_p key_dp key_k point]. rewrite Hdp. cbn [deref bind].
    change (to_word32 (size ecc25519_sets_0)) with 32.
    destruct (Z.ltb_spec len 32); [lia|].
    change (Z.to_nat 32) with 32%nat.
    rewrite XMEMSET_ok by lia. cbn [bind].
    rewrite XMEMCPY_ok
      by (rewrite ?length_app, ?repeat_length, ?length_skipn; cbn [length firstn Nat.add]; lia).
    rewrite !firstn_O, skipn_O. cbn [app Nat.add].
    rewrite (firstn_all2 (rev e)) by lia.
    rewrite skipn_app, repeat_length, Nat.sub_diag, skipn_O.
    rewrite skipn_all2 by (rewrite repeat_length; lia). reflexivity.
  - rewrite app_nth1 by lia. rewrite rev_nth by lia. rewrite Hle.
    change (32 - 32)%nat with 0%nat. rewrite A0. apply clamp_byte0_low.
  - rewrite app_nth1 by lia. rewrite rev_nth by lia. rewrite Hle.
    change (32 - 1)%nat with 31%nat. rewrite A31. apply clamp_byte31_top2.
Qed.

(** X15: [curve25519] reads of its scalar only what the clamp keeps: scalars
    that agree except in the low three bits of byte 0 and the top two bits of
    byte 31 give the same result; in particular a clamped scalar gives the
    result of the scalar it was clamped from. *)
Theorem curve25519_ignores_clamped_bits (q n n' p : list byte) :
  length n = 32%nat -> length n' = 32%nat ->
  Z.land (byte_to_Z (nth 0 n x00)) 248 = Z.land (byte_to_Z (nth 0 n' x00)) 248 ->
  Z.land (byte_to_Z (nth 31 n x00)) 63 = Z.land (byte_to_Z (nth 31 n' x00)) 63 ->
  (forall i, (0 < i < 31)%nat -> nth i n x00 = nth i n' x00) ->
  curve25519 q n p = curve25519 q n' p /\
  (forall e, clamp n = Ok e -> curve25519 q e p = curve25519 q n p).
Proof.
  intros Hn Hn' H0 H31 Hmid.
  destruct (clamp_ok n Hn) as (e & He & Hle & _).
  pose proof (clamp_agree n n' e Hn Hn' H0 H31 Hmid He) as He'.
  assert (Hcurve : forall m : list byte, length m = 32%nat -> clamp m = Ok e ->
            curve25519 q m p
            = (_ <- (if (32 <=? length p)%nat then Ok tt else Fault OutOfBounds) ;;
               q' <- XMEMCPY q 0 (curve25519_ladder e p) 0 32 ;; Ok (0, q'))).
  { intros m Hm Hc. unfold curve25519.
    rewrite for_loop_copy_all by (rewrite ?repeat_length; lia). cbn [bind].
    rewrite Hc. reflexivity. }
  split.
  - rewrite (Hcurve n Hn He), (Hcurve n' Hn' He'). reflexivity.
  - intros e0 He0. assert (e0 = e) by congruence. subst e0.
    rewrite (Hcurve n Hn He). apply Hcurve; [assumption|].
    exact (clamp_idem n e Hn He).
Qed.

(** X16: a public key stored by [ecc25519_make_key] has bit 7 of its first
    stored byte clear, so [ecc25519_shared_secret] never refuses a generated
    key as the peer: with room for 32 bytes it returns 0 and reports 32. *)
Theorem generated_key_is_accepted (rng rng' : RNG) (key priv : ecc25519_key)
  (n out : list byte) (outlen : Z) :
  wf_key key -> RNG_GenerateBlock rng 32 = (0, n, rng') -> length n = 32%nat ->
  wf_key priv -> (32 <= length out)%nat -> 32 <= outlen ->
  exists key' b secret,
    ecc25519_make_key ECC_BAD_ARG_E RNG RNG_GenerateBlock (Some rng) 32 (Some key)
    = Ok (0, Some rng', Some key') /\
    nth_error (point (key_p key')) 0 = Some b /\ Z.testbit (byte_to_Z b) 7 = false /\
    ecc25519_shared_secret ECC_BAD_ARG_E BAD_FUNC_ARG BUFFER_E
      (Some priv) (Some key') (Some out) (Some outlen)
    = Ok (0, Some secret, Some 32) /\
    length secret = length out.
Proof.
  intros Hwf Hrng Hn Hpriv Hout Hlen.
  destruct (make_key_ok ECC_BAD_ARG_E RNG RNG_GenerateBlock rng rng' key n Hwf Hrng Hn)
    as (e & He & Hle & Hmk).
  set (key' := set_k (set_p key (rev (curve25519_ladder e basepoint))) (rev e)) in *.
  set (b := nth 31 (curve25519_ladder e basepoint) x00).
  assert (Hwf' : wf_key key').
  { split; cbn [key' set_k set_p key_p key_k point]; rewrite length_rev;
      [apply length_curve25519_ladder|assumption]. }
  assert (Hb : nth_error (point (key_p key')) 0 = Some b).
  { cbn [key' set_k set_p key_p key_k point].
    rewrite nth_error_nth' with (d := x00)
      by (rewrite length_rev, length_curve25519_ladder; lia).
    rewrite rev_nth by (rewrite length_curve25519_ladder; lia).
    rewrite length_curve25519_ladder. reflexivity. }
  assert (Hb127 : byte_to_Z b <= 127).
  { unfold b. destruct (curve25519_ladder_tobytes e basepoint) as [h ->].
    apply fe_tobytes_top. }
  destruct (shared_secret_ok ECC_BAD_ARG_E BAD_FUNC_ARG BUFFER_E
              priv key' out outlen b Hpriv Hwf' Hout Hlen Hb Hb127) as (e2 & _ & _ & Hs).
  exists key', b. eexists.
  split; [exact Hmk|]. split; [exact Hb|].
  split; [rewrite byte_bit7; destruct (Z.gtb_spec (byte_to_Z b) 127); [lia|reflexivity]|].
  split; [exact Hs|].
  rewrite length_app, length_curve25519_ladder, length_skipn. lia.
Qed.

(** X17: [ecc25519_shared_secret] reads the private array of its first key
    and the public array of its second key and nothing else: neither the
    parameters [dp], nor the format [f], nor the other array of either key
    has any bearing on what it returns and writes. *)
Theorem shared_secret_reads_arrays_only (priv priv' pub pub' : ecc25519_key)
  (out : option (list byte)) (outlen : option Z) :
  point (key_k priv) = point (key_k priv') -> point (key_p pub) = point (key_p pub') ->
  ecc25519_shared_secret ECC_BAD_ARG_E BAD_FUNC_ARG BUFFER_E (Some priv) (Some pub) out outlen
  = ecc25519_shared_secret ECC_BAD_ARG_E BAD_FUNC_ARG BUFFER_E
      (Some priv') (Some pub') out outlen.
Proof.
  intros Hk Hp. unfold ecc25519_shared_secret. rewrite Hk, Hp. reflexivity.
Qed.

(** X18: unlike the export and import functions, [ecc25519_shared_secret]
    does not go through [ecc25519_size]: on keys wiped by [ecc25519_free]
    it does not fault but returns 0 and reports 32 bytes, computed from the
    all-zero arrays. *)
Theorem shared_secret_after_free (priv pub priv' pub' : ecc25519_key) (out : list byte)
  (outlen : Z) :
  wf_key priv -> wf_key pub -> (32 <= length out)%nat -> 32 <= outlen ->
  ecc25519_free (Some priv) = Ok (Some priv') -> ecc25519_free (Some pub) = Ok (Some pub') ->
  key_dp priv' = None /\ key_dp pub' = None /\
  exists e,
    clamp (repeat x00 32) = Ok e /\
    ecc25519_shared_secret ECC_BAD_ARG_E BAD_FUNC_ARG BUFFER_E
      (Some priv') (Some pub') (Some out) (Some outlen)
    = Ok (0, Some (curve25519_ladder e (repeat x00 32) ++ skipn 32 out), Some 32).
Proof.
  intros [Hp1 Hk1] [Hp2 Hk2] Hout Hlen Hf1 Hf2.
  assert (Hset : forall l : list byte, XMEMSET l 0 x00 (length l) = Ok (repeat x00 (length l))).
  { intros l. rewrite XMEMSET_ok by lia. rewrite firstn_O, skipn_all2 by lia.
    rewrite app_nil_r. reflexivity. }
  assert (Hfree : forall k : ecc25519_key,
            length (point (key_p k)) = 32%nat -> length (point (key_k k)) = 32%nat ->
            ecc25519_free (Some k)
            = Ok (Some (set_k (set_p (set_dp k None) (repeat x00 32)) (repeat x00 32)))).
  { intros k Hp Hk. unfold ecc25519_free. cbn [set_dp key_p key_k].
    rewrite Hset. cbn [bind set_p key_k]. rewrite Hset. cbn [bind].
    cbn [set_dp set_p set_k key_p key_k point]. rewrite Hp, Hk. reflexivity. }
  rewrite Hfree in Hf1, Hf2 by assumption.
  injection Hf1 as <-. injection Hf2 as <-.
  split; [reflexivity|]. split; [reflexivity|].
  destruct (shared_secret_ok ECC_BAD_ARG_E BAD_FUNC_ARG BUFFER_E
              (set_k (set_p (set_dp priv None) (repeat x00 32)) (repeat x00 32))
              (set_k (set_p (set_dp pub None) (repeat x00 32)) (repeat x00 32))
              out outlen x00) as (e & He & _ & Hs);
    try assumption; try (split; reflexivity); try reflexivity.
  { change (byte_to_Z x00) with 0. lia. }
  exists e. split; [exact He|exact Hs].
Qed.

(** X19: with a null key, a null buffer or a null [outLen],
    [ecc25519_export_private_raw] returns [ECC_BAD_ARG_E] and writes nothing. *)
Theorem export_private_raw_null_args (key : option ecc25519_key) (out : option (list byte))
  (outLen : option Z) :
  key = None \/ out = None \/ outLen = None ->
  ecc25519_export_private_raw ECC_BAD_ARG_E BUFFER_E key out outLen
  = Ok (ECC_BAD_ARG_E, out, outLen).
Proof.
  intros H. unfold ecc25519_export_private_raw.
  destruct key; [|reflexivity]. destruct out; [|reflexivity].
  destruct outLen; [|reflexivity].
  destruct H as [H|[H|H]]; discriminate.
Qed.

End KeyManagerMore.

(** * The deferred swaps of the ladder *)

Lemma ladder_bit_01 (e : list byte) (pos : Z) : ladder_bit e pos = 0 \/ ladder_bit e pos = 1.
Proof.
  unfold ladder_bit.
  set (v := Z.shiftr _ _).
  pose proof (Z.land_ones v 1 ltac:(lia)) as E. change (Z.ones 1) with 1 in E.
  change (2 ^ 1) with 2 in E. rewrite E.
  pose proof (Z.mod_pos_bound v 2 ltac:(lia)). lia.
Qed.

Lemma cswap_regs_0 (r : ladder_regs) : cswap_regs r 0 = r.
Proof. destruct r as [[[x2 z2] x3] z3]. reflexivity. Qed.

Lemma cswap_regs_twice (r : ladder_regs) (b : Z) : cswap_regs (cswap_regs r b) b = r.
Proof.
  destruct r as [[[x2 z2] x3] z3]. unfold cswap_regs, fe_cswap.
  destruct (b =? 1) eqn:E; cbn; rewrite ?E; reflexivity.
Qed.

Lemma cswap_regs_xor (r : ladder_regs) (s b : Z) :
  (s = 0 \/ s = 1) -> (b = 0 \/ b = 1) ->
  cswap_regs (cswap_regs r s) (Z.lxor s b) = cswap_regs r b.
Proof.
  destruct r as [[[x2 z2] x3] z3].
  intros [-> | ->] [-> | ->]; reflexivity.
Qed.

Lemma ladder_body_cswap (e : list byte) (x1 : fe) (pos : Z) (r : ladder_regs) (s : Z) :
  ladder_body e x1 pos (r, s)
  = (montgomery_step x1 (cswap_regs r (Z.lxor s (ladder_bit e pos))), ladder_bit e pos).
Proof.
  destruct r as [[[x2 z2] x3] z3]. unfold ladder_body, cswap_regs.
  fold (ladder_bit e pos).
  destruct (fe_cswap x2 x3 _), (fe_cswap z2 z3 _). reflexivity.
Qed.

Lemma ladder_loop_ref (e : list byte) (x1 : fe) (n : nat) (r : ladder_regs) (s : Z) :
  s = 0 \/ s = 1 ->
  cswap_regs (fst (ladder_loop e x1 n (cswap_regs r s, s)))
             (snd (ladder_loop e x1 n (cswap_regs r s, s)))
  = ladder_ref e x1 n r.
Proof.
  revert r s. induction n as [|n IH]; intros r s Hs.
  - cbn [ladder_loop ladder_ref fst snd]. apply cswap_regs_twice.
  - cbn [ladder_loop ladder_ref].
    rewrite ladder_body_cswap.
    pose proof (ladder_bit_01 e (Z.of_nat n)) as Hb.
    rewrite cswap_regs_xor by assumption.
    set (b := ladder_bit e (Z.of_nat n)) in *.
    set (r1 := montgomery_step x1 (cswap_regs r b)).
    rewrite <- (cswap_regs_twice r1 b) at 1 2.
    apply IH. assumption.
Qed.

(** X20: the loop of [curve25519], which carries each swap over to the next
    bit and undoes the last one after the loop, leaves in [x2], [z2] what the
    ladder leaves that swaps before and after every step; the output of
    [curve25519_ladder] is the encoding of that [x2 / z2]. *)
Theorem ladder_deferred_swaps (e p : list byte) (x1 : fe) (n : nat) (r : ladder_regs) :
  (let '(r', swap) := ladder_loop e x1 n (r, 0) in cswap_regs r' swap)
  = ladder_ref e x1 n r /\
  curve25519_ladder e p
  = (let '(x2, z2, _, _) :=
       ladder_ref e (fe_frombytes p) 255 (fe_1, fe_0, fe_copy (fe_frombytes p), fe_1) in
     fe_tobytes (fe_mul x2 (fe_invert z2))).
Proof.
  assert (H : forall x n r,
    (let '(r', swap) := ladder_loop e x n (r, 0) in cswap_regs r' swap)
    = ladder_ref e x n r).
  { intros x m r0. rewrite <- (ladder_loop_ref e x m r0 0) by (left; reflexivity).
    rewrite cswap_regs_0. destruct (ladder_loop e x m (r0, 0)). reflexivity. }
  split; [apply H|].
  rewrite <- H. unfold curve25519_ladder.
  destruct (ladder_loop _ _ _ _) as [[[[x2 z2] x3] z3] swap].
  unfold cswap_regs.
  destruct (fe_cswap x2 x3 swap), (fe_cswap z2 z3 swap). reflexivity.
Qed.

(** * The scalar as an integer *)

Lemma le_decode_range (l : list byte) : 0 <= le_decode l < 256 ^ Z.of_nat (length l).
Proof.
  induction l as [|b l IH]; [cbn; lia|].
  cbn [le_decode length]. rewrite Nat2Z.inj_succ, Z.pow_succ_r by lia.
  pose proof (byte_to_Z_range b). lia.
Qed.

Lemma le_decode_app (a b : list byte) :
  le_decode (a ++ b) = le_decode a + 256 ^ Z.of_nat (length a) * le_decode b.
Proof.
  induction a as [|x a IH]; [cbn [app le_decode length]; change (256 ^ Z.of_nat 0) with 1; lia|].
  cbn [app le_decode length]. rewrite IH, Nat2Z.inj_succ, Z.pow_succ_r by lia. ring.
Qed.

Lemma cons_mod_256 (b x : Z) : 0 <= b < 256 -> (b + 256 * x) mod 256 = b.
Proof. intros H. symmetry. apply Z.mod_unique with (q := x); lia. Qed.

Lemma cons_div_256 (b x : Z) : 0 <= b < 256 -> (b + 256 * x) / 256 = x.
Proof. intros H. symmetry. apply Z.div_unique with (r := b); lia. Qed.

Lemma le_decode_testbit (l : list byte) (pos : Z) :
  0 <= pos ->
  Z.testbit (le_decode l) pos
  = Z.testbit (byte_to_Z (nth (Z.to_nat (pos / 8)) l x00)) (pos mod 8).
Proof.
  revert pos. induction l as [|b l IH]; intros pos Hpos.
  - cbn [le_decode]. destruct (Z.to_nat (pos / 8)); cbn [nth];
      change (byte_to_Z x00) with 0; rewrite !Z.testbit_0_l; reflexivity.
  - cbn [le_decode]. pose proof (byte_to_Z_range b) as Hb.
    destruct (Z_lt_le_dec pos 8) as [Hlt|Hge].
    + rewrite Z.div_small, Z.mod_small by lia. cbn [Z.to_nat nth].
      rewrite <- (Z.mod_pow2_bits_low _ 8) by lia.
      change (2 ^ 8) with 256. rewrite cons_mod_256 by lia. reflexivity.
    + assert (Hq : pos / 8 = (pos - 8) / 8 + 1).
      { rewrite <- Z.div_add by lia. f_equal. lia. }
      assert (Hr : pos mod 8 = (pos - 8) mod 8).
      { rewrite <- (Z.mod_add (pos - 8) 1 8) by lia. f_equal. lia. }
      rewrite Hq, Hr. rewrite Z2Nat.inj_add by (try apply Z.div_pos; lia).
      rewrite Nat.add_comm. change (Z.to_nat 1) with 1%nat. cbn [Nat.add nth].
      rewrite <- IH by lia.
      replace pos with ((pos - 8) + 8) at 1 by lia.
      rewrite <- Z.div_pow2_bits by lia. change (2 ^ 8) with 256.
      rewrite cons_div_256 by lia. reflexivity.
Qed.

(** X21: the loop of [curve25519] reads bit [pos] of the little-endian
    integer held in [e]: [(e[pos / 8] >> (pos & 7)) & 1] is that bit. *)
Theorem ladder_bit_of_scalar (e : list byte) (pos : Z) :
  0 <= pos ->
  ladder_bit e pos = Z.b2z (Z.testbit (le_decode e) pos).
Proof.
  intros Hpos. unfold ladder_bit.
  rewrite le_decode_testbit by assumption.
  change 7 with (Z.ones 3). rewrite Z.land_ones by lia. change (2 ^ 3) with 8.
  pose proof (Z.mod_pos_bound pos 8 ltac:(lia)) as Hm.
  set (v := byte_to_Z _). set (j := pos mod 8) in *.
  pose proof (Z.land_ones (Z.shiftr v j) 1 ltac:(lia)) as E.
  change (Z.ones 1) with 1 in E. change (2 ^ 1) with 2 in E.
  rewrite E, <- Z.bit0_mod, Z.shiftr_spec by lia. rewrite Z.add_0_l. reflexivity.
Qed.

Lemma clamp_byte31_range (b : byte) :
  64 <= byte_to_Z (byte_or (byte_and b 127) 64) < 128.
Proof. destruct b; vm_compute; split; congruence. Qed.

(** X22: the integer of a clamped scalar is a multiple of 8 between 2^254
    and 2^255. *)
Theorem clamped_scalar_range (n e : list byte) :
  length n = 32%nat -> clamp n = Ok e ->
  le_decode e mod 8 = 0 /\ 2 ^ 254 <= le_decode e < 2 ^ 255.
Proof.
  intros Hn He.
  destruct (clamp_ok n Hn) as (e1 & He1 & Hl & A0 & A31 & _).
  assert (e1 = e) by congruence. subst e1.
  split.
  - destruct e as [|b0 t]; [discriminate Hl|]. cbn [nth] in A0. cbn [le_decode].
    pose proof (clamp_byte0_low (nth 0 n x00)) as Hlow. rewrite <- A0 in Hlow.
    change 7 with (Z.ones 3) in Hlow. rewrite Z.land_ones in Hlow by lia.
    change (2 ^ 3) with 8 in Hlow.
    replace (byte_to_Z b0 + 256 * le_decode t)
      with (byte_to_Z b0 + (32 * le_decode t) * 8) by ring.
    rewrite Z.mod_add by lia. exact Hlow.
  - rewrite <- (firstn_skipn 31 e), le_decode_app.
    pose proof (le_decode_range (firstn 31 e)) as Hlo.
    rewrite length_firstn, Hl in *. change (Nat.min 31 32) with 31%nat in *.
    rewrite (skipn_nth_cons e 31) by lia.
    rewrite skipn_all2 by lia. cbn [le_decode]. rewrite A31.
    pose proof (clamp_byte31_range (nth 31 n x00)) as Hb.
    set (b := byte_to_Z (byte_or (byte_and (nth 31 n x00) 127) 64)) in *.
    change (256 ^ Z.of_nat 31) with (2 ^ 248) in *.
    change (2 ^ 254) with (2 ^ 248 * 64). change (2 ^ 255) with (2 ^ 248 * 128).
    nia.
Qed.

(** * Closed instances of the further properties *)

Lemma make_key_bad_args_witness :
  16 <> 32 /\
  ecc25519_make_key (-170) unit rng_ff (Some tt) 16 (Some sample_key)
  = Ok (-170, Some tt, Some sample_key).
Proof.
  assert (H : 16 <> 32) by discriminate.
  split; [exact H|].
  apply (make_key_bad_args (-170) unit rng_ff (Some tt) 16 (Some sample_key)).
  right. right. exact H.
Defined.

Lemma shared_secret_null_args_witness :
  ecc25519_shared_secret (-170) (-173) (-132)
    (Some sample_key) (Some sample_key) (Some (repeat xff 32)) None
  = Ok (-173, Some (repeat xff 32), None).
Proof.
  apply (shared_secret_null_args (-170) (-173) (-132) (Some sample_key) (Some sample_key)
           (Some (repeat xff 32)) None).
  right. right. right. reflexivity.
Defined.

Lemma export_public_ok_witness :
  (key_dp sample_key = Some ecc25519_sets_0 /\
   length (point (key_p sample_key)) = 32%nat /\ (34 <= length (repeat xff 40))%nat) /\
  ecc25519_export_public (-173) (Some sample_key) (Some (repeat xff 40)) (Some 0)
  = Ok (0, Some (x22 :: x41 :: repeat x01 32 ++ repeat xff 6), Some 34).
Proof.
  assert (Hout : (34 <= length (repeat xff 40))%nat) by (cbn [length repeat]; lia).
  split; [repeat split; try reflexivity; exact Hout|].
  exact (export_public_ok (-173) sample_key (repeat xff 40) 0 eq_refl eq_refl Hout).
Defined.

Lemma export_public_null_args_witness :
  ecc25519_export_public (-173) None (Some (repeat xff 40)) (Some 40)
  = Ok (-173, Some (repeat xff 40), Some 40).
Proof.
  apply (export_public_null_args (-173) None (Some (repeat xff 40)) (Some 40)).
  left. reflexivity.
Defined.

Lemma export_public_unchecked_witness :
  ecc25519_export_public (-173) (Some sample_key) (Some (repeat xff 34)) None
  = Fault NullDeref /\
  ecc25519_export_public (-173) (Some sample_key) (Some (repeat xff 33)) (Some 34)
  = Fault OutOfBounds.
Proof.
  split.
  - destruct (export_public_unchecked (-173) sample_key (repeat xff 34) None
                eq_refl eq_refl) as (H & _).
    apply H; [cbn [length repeat]; lia|reflexivity].
  - destruct (export_public_unchecked (-173) sample_key (repeat xff 33) (Some 34)
                eq_refl eq_refl) as (_ & H).
    apply H. cbn [length repeat]. lia.
Defined.

Lemma import_public_spec_witness :
  wf_key sample_key /\
  ecc25519_import_public (-170) (Some (x22 :: x41 :: repeat x07 32)) past_ab 32
    (Some sample_key)
  = Ok (-170, Some sample_key) /\
  ecc25519_import_public (-170) (Some (x22 :: x40 :: repeat x07 32)) past_ab 34
    (Some sample_key)
  = Ok (-170, Some sample_key) /\
  ecc25519_import_public (-170) None past_ab 34 (Some sample_key) = Fault NullDeref /\
  exists key',
    ecc25519_import_public (-170) (Some (x22 :: x41 :: repeat x07 40)) past_ab 34
      (Some sample_key)
    = Ok (0, Some key') /\
    point (key_p key') = repeat x07 32 /\
    skipn 2 (point (key_k key')) = repeat x02 30.
Proof.
  assert (Hwf : wf_key sample_key) by (split; reflexivity).
  split; [exact Hwf|]. split; [|split; [|split]].
  - destruct (import_public_spec (-170) (Some (x22 :: x41 :: repeat x07 32)) past_ab 32
                sample_key Hwf eq_refl) as (H & _).
    apply H. discriminate.
  - destruct (import_public_spec (-170) (Some (x22 :: x40 :: repeat x07 32)) past_ab 34
                sample_key Hwf eq_refl) as (_ & H & _).
    apply (H (x22 :: x40 :: repeat x07 32)); [reflexivity|discriminate].
  - destruct (import_public_spec (-170) None past_ab 34 sample_key Hwf eq_refl)
      as (_ & _ & H & _).
    apply H. reflexivity.
  - destruct (import_public_spec (-170) (Some (x22 :: x41 :: repeat x07 40)) past_ab 34
                sample_key Hwf eq_refl) as (_ & _ & _ & H).
    destruct (H (x22 :: x41 :: repeat x07 40) eq_refl) as (key' & Hi & Hp & _ & _ & _ & _ & Hk);
      [cbn [length repeat]; lia|reflexivity|].
    exists key'. split; [exact Hi|]. split; [exact Hp|exact Hk].
Defined.

Lemma export_private_raw_ok_witness :
  (32 <= 40 /\ (32 <= length (repeat xff 40))%nat) /\
  ecc25519_export_private_raw (-170) (-132) (Some sample_key) (Some (repeat xff 40)) (Some 40)
  = Ok (0, Some (repeat x02 32 ++ repeat xff 8), Some 32).
Proof.
  assert (Hlen : 32 <= 40) by lia.
  assert (Hout : (32 <= length (repeat xff 40))%nat) by (cbn [length repeat]; lia).
  split; [split; assumption|].
  exact (export_private_raw_ok (-170) (-132) sample_key (repeat xff 40) 40
           eq_refl eq_refl Hlen Hout).
Defined.

Lemma import_private_raw_spec_witness :
  wf_key sample_key /\
  ecc25519_import_private_raw (-170) (Some (repeat x03 32)) 31 (Some (repeat x04 32)) 32
    (Some sample_key)
  = Ok (-170, Some sample_key) /\
  ecc25519_import_private_raw (-170) (Some (repeat x03 40)) 32 (Some (repeat x04 32)) 32
    (Some sample_key)
  = Ok (0, Some (set_p (set_k sample_key (repeat x03 32)) (repeat x04 32))).
Proof.
  assert (Hwf : wf_key sample_key) by (split; reflexivity).
  split; [exact Hwf|]. split.
  - destruct (import_private_raw_spec (-170) (Some (repeat x03 32)) (Some (repeat x04 32))
                31 32 sample_key Hwf eq_refl) as (H & _).
    apply H. left. discriminate.
  - destruct (import_private_raw_spec (-170) (Some (repeat x03 40)) (Some (repeat x04 32))
                32 32 sample_key Hwf eq_refl) as (_ & H).
    apply (H (repeat x03 40) (repeat x04 32) eq_refl eq_refl); cbn [length repeat]; lia.
Defined.

Lemma private_raw_round_trip_witness :
  (wf_key sample_key /\ wf_key (set_f sample_key x00)) /\
  exists out' key2',
    ecc25519_export_private_raw (-170) (-132) (Some sample_key) (Some (repeat xff 32)) (Some 32)
    = Ok (0, Some out', Some 32) /\
    ecc25519_import_private_raw (-170) (Some out') 32 (Some (repeat x04 32)) 32
      (Some (set_f sample_key x00))
    = Ok (0, Some key2') /\
    point (key_k key2') = point (key_k sample_key) /\
    point (key_p key2') = firstn 32 (repeat x04 32).
Proof.
  assert (Hwf : wf_key sample_key) by (split; reflexivity).
  assert (Hwf2 : wf_key (set_f sample_key x00)) by (split; reflexivity).
  split; [split; assumption|].
  apply (private_raw_round_trip (-170) (-132) sample_key (set_f sample_key x00)
           (repeat xff 32) (repeat x04 32) 32 Hwf eq_refl Hwf2 eq_refl);
    cbn [length repeat]; lia.
Defined.

Lemma init_spec_witness :
  wf_key wiped_key /\
  exists key',
    ecc25519_init (-170) (Some wiped_key) = Ok (0, Some key') /\
    key_f key' = montgomery_x_le /\ key_dp key' = Some ecc25519_sets_0 /\
    ecc25519_size (Some key') = Ok 32.
Proof.
  assert (Hwf : wf_key wiped_key) by (split; reflexivity).
  split; [exact Hwf|].
  destruct (init_spec (-170) wiped_key Hwf)
    as (_ & key' & Hi & Hf & Hdp & _ & _ & _ & _ & Hs & _).
  exists key'.
  split; [exact Hi|]. split; [exact Hf|]. split; [exact Hdp|exact Hs].
Defined.

Lemma wf_key_preserved_witness :
  wf_key sample_key /\
  ecc25519_free (Some sample_key) = Ok (Some wiped_key) /\
  wf_key wiped_key.
Proof.
  assert (Hwf : wf_key sample_key) by (split; reflexivity).
  assert (Hfree : ecc25519_free (Some sample_key) = Ok (Some wiped_key)) by reflexivity.
  split; [exact Hwf|]. split; [exact Hfree|].
  destruct (wf_key_preserved (-170) unit rng_ff sample_key wiped_key Hwf) as (_ & H & _).
  exact (H Hfree).
Defined.

Lemma wiped_key_faults_witness :
  key_dp wiped_key = None /\
  ecc25519_export_public (-173) (Some wiped_key) (Some (repeat xff 40)) (Some 40)
  = Fault NullDeref /\
  ecc25519_export_public (-173) (Some wiped_key) None (Some 40)
  = Ok (-173, None, Some 40) /\
  ecc25519_export_private_raw (-170) (-132) (Some wiped_key) (Some (repeat xff 40)) (Some 40)
  = Fault NullDeref /\
  ecc25519_export_private_raw (-170) (-132) (Some wiped_key) (Some (repeat xff 40)) None
  = Ok (-170, Some (repeat xff 40), None) /\
  ecc25519_import_public (-170) (Some (x22 :: x41 :: repeat x07 32)) past_ab 34
    (Some wiped_key)
  = Fault NullDeref /\
  ecc25519_import_private_raw (-170) (Some (repeat x03 32)) 32 (Some (repeat x04 32)) 32
    (Some wiped_key)
  = Fault NullDeref.
Proof.
  split; [reflexivity|].
  destruct (wiped_key_faults (-170) (-173) (-132) wiped_key (Some (repeat xff 40)) (Some 40)
              (Some (x22 :: x41 :: repeat x07 32)) (Some (repeat x03 32))
              (Some (repeat x04 32)) past_ab 34 32 32 eq_refl) as (H1 & H2 & H3 & H4).
  destruct (wiped_key_faults (-170) (-173) (-132) wiped_key None (Some 40)
              None None None past_ab 0 0 0 eq_refl) as (H5 & _).
  destruct (wiped_key_faults (-170) (-173) (-132) wiped_key (Some (repeat xff 40)) None
              None None None past_ab 0 0 0 eq_refl) as (_ & H6 & _).
  split; [exact H1|]. split; [exact H5|]. split; [exact H2|]. split; [exact H6|].
  split; [exact H3|exact H4].
Defined.

Lemma import_into_null_key_witness :
  nth_error [x02; x41] 1 = Some montgomery_x_le /\
  ecc25519_import_public (-170) (Some (x22 :: x41 :: repeat x07 32)) past_ab 34 None
  = Ok (-170, None) /\
  ecc25519_import_public (-170) (Some [x02; x41]) past_ab 2 None = Fault NullDeref /\
  ecc25519_import_private_raw (-170) (Some (repeat x03 32)) 32 (Some (repeat x04 32)) 32 None
  = Ok (-170, None) /\
  ecc25519_import_private_raw (-170) None 0 None 0 None = Ok (0, None).
Proof.
  split; [reflexivity|].
  destruct (import_into_null_key (-170) [x02; x41] past_ab
              (Some (x22 :: x41 :: repeat x07 32))
              (Some (repeat x03 32)) (Some (repeat x04 32)) 34 32 32 eq_refl)
    as (H1 & H2 & H3 & _).
  destruct (import_into_null_key (-170) [x02; x41] past_ab None None None 2 0 0 eq_refl)
    as (_ & _ & _ & H4).
  split; [apply H1; discriminate|]. split; [exact H2|].
  split; [apply H3; left; discriminate|exact H4].
Defined.

Lemma generated_private_key_export_witness :
  (wf_key sample_key /\ rng_ff tt 32 = (0, repeat xff 32, tt) /\
   length (repeat xff 32) = 32%nat) /\
  exists key' out',
    ecc25519_make_key (-170) unit rng_ff (Some tt) 32 (Some sample_key)
    = Ok (0, Some tt, Some key') /\
    ecc25519_export_private_raw (-170) (-132) (Some key') (Some (repeat x00 32)) (Some 32)
    = Ok (0, Some out', Some 32) /\
    Z.land (byte_to_Z (nth 31 out' x00)) 7 = 0 /\
    Z.land (byte_to_Z (nth 0 out' x00)) 192 = 64.
Proof.
  assert (Hwf : wf_key sample_key) by (split; reflexivity).
  split; [repeat split; reflexivity|].
  assert (Hlen : 32 <= 32) by lia.
  assert (Hout : (32 <= length (repeat x00 32))%nat) by (cbn [length repeat]; lia).
  destruct (generated_private_key_export (-170) (-132) unit rng_ff tt tt sample_key
              (repeat xff 32) (repeat x00 32) 32 Hwf eq_refl eq_refl eq_refl Hlen Hout)
    as (key' & out' & Hmk & _ & _ & Hex & Hlow & Htop).
  exists key', out'.
  split; [exact Hmk|]. split; [exact Hex|]. split; [exact Hlow|exact Htop].
Defined.

Lemma curve25519_ignores_clamped_bits_witness :
  (length (repeat xff 32) = 32%nat /\ length scalar_f8_7f = 32%nat /\
   clamp (repeat xff 32) = Ok scalar_f8_7f) /\
  curve25519 (repeat x00 32) (repeat xff 32) basepoint
  = curve25519 (repeat x00 32) scalar_f8_7f basepoint.
Proof.
  split; [repeat split; reflexivity|].
  assert (Hmid : forall i, (0 < i < 31)%nat ->
                   nth i (repeat xff 32) x00 = nth i scalar_f8_7f x00).
  { intros i Hi. do 31 (destruct i as [|i]; [try reflexivity; lia|]). lia. }
  exact (proj1 (curve25519_ignores_clamped_bits (repeat x00 32) (repeat xff 32) scalar_f8_7f
                  basepoint eq_refl eq_refl eq_refl eq_refl Hmid)).
Defined.

Lemma generated_key_is_accepted_witness :
  (wf_key sample_key /\ rng_ff tt 32 = (0, repeat xff 32, tt) /\
   length (repeat xff 32) = 32%nat) /\
  exists key' b secret,
    ecc25519_make_key (-170) unit rng_ff (Some tt) 32 (Some sample_key)
    = Ok (0, Some tt, Some key') /\
    nth_error (point (key_p key')) 0 = Some b /\ Z.testbit (byte_to_Z b) 7 = false /\
    ecc25519_shared_secret (-170) (-173) (-132)
      (Some sample_key) (Some key') (Some (repeat xff 32)) (Some 32)
    = Ok (0, Some secret, Some 32).
Proof.
  assert (Hwf : wf_key sample_key) by (split; reflexivity).
  split; [repeat split; reflexivity|].
  assert (Hlen : 32 <= 32) by lia.
  assert (Hout : (32 <= length (repeat xff 32))%nat) by (cbn [length repeat]; lia).
  destruct (generated_key_is_accepted (-170) (-173) (-132) unit rng_ff tt tt
              sample_key sample_key (repeat xff 32) (repeat xff 32) 32
              Hwf eq_refl eq_refl Hwf Hout Hlen)
    as (key' & b & secret & Hmk & Hb & Hbit & Hs & _).
  exists key', b, secret.
  split; [exact Hmk|]. split; [exact Hb|]. split; [exact Hbit|exact Hs].
Defined.

Lemma shared_secret_reads_arrays_only_witness :
  ecc25519_shared_secret (-170) (-173) (-132)
    (Some sample_key) (Some sample_key) (Some (repeat xff 32)) (Some 32)
  = ecc25519_shared_secret (-170) (-173) (-132)
      (Some (set_p (set_dp sample_key None) (repeat x00 32))) (Some (set_f sample_key x00))
      (Some (repeat xff 32)) (Some 32).
Proof.
  apply (shared_secret_reads_arrays_only (-170) (-173) (-132)
           sample_key (set_p (set_dp sample_key None) (repeat x00 32))
           sample_key (set_f sample_key x00)); reflexivity.
Defined.

Lemma shared_secret_after_free_witness :
  (wf_key sample_key /\ ecc25519_free (Some sample_key) = Ok (Some wiped_key)) /\
  exists e,
    clamp (repeat x00 32) = Ok e /\
    ecc25519_shared_secret (-170) (-173) (-132)
      (Some wiped_key) (Some wiped_key) (Some (repeat xff 32)) (Some 32)
    = Ok (0, Some (curve25519_ladder e (repeat x00 32) ++ skipn 32 (repeat xff 32)), Some 32).
Proof.
  assert (Hwf : wf_key sample_key) by (split; reflexivity).
  assert (Hfree : ecc25519_free (Some sample_key) = Ok (Some wiped_key)) by reflexivity.
  split; [split; assumption|].
  assert (Hlen : 32 <= 32) by lia.
  assert (Hout : (32 <= length (repeat xff 32))%nat) by (cbn [length repeat]; lia).
  exact (proj2 (proj2 (shared_secret_after_free (-170) (-173) (-132)
                         sample_key sample_key wiped_key wiped_key (repeat xff 32) 32
                         Hwf Hwf Hout Hlen Hfree Hfree))).
Defined.

Lemma export_private_raw_null_args_witness :
  ecc25519_export_private_raw (-170) (-132) (Some sample_key) (Some (repeat xff 32)) None
  = Ok (-170, Some (repeat xff 32), None).
Proof.
  apply (export_private_raw_null_args (-170) (-132) (Some sample_key)
           (Some (repeat xff 32)) None).
  right. right. reflexivity.
Defined.

Lemma ladder_bit_of_scalar_witness :
  0 <= 254 /\
  ladder_bit scalar_f8_7f 254 = Z.b2z (Z.testbit (le_decode scalar_f8_7f) 254).
Proof.
  assert (H : 0 <= 254) by lia.
  split; [exact H|exact (ladder_bit_of_scalar scalar_f8_7f 254 H)].
Defined.

Lemma clamped_scalar_range_witness :
  (length (repeat xff 32) = 32%nat /\ clamp (repeat xff 32) = Ok scalar_f8_7f) /\
  le_decode scalar_f8_7f mod 8 = 0 /\
  2 ^ 254 <= le_decode scalar_f8_7f < 2 ^ 255.
Proof.
  split; [split; reflexivity|].
  exact (clamped_scalar_range (repeat xff 32) scalar_f8_7f eq_refl eq_refl).
Defined.
